(** * nativescript-cloud: the codesign service and the build command helper

    A shallow embedding of [lib/services/cloud-codesign-service.ts] and
    [lib/commands/build-command-helper.ts].  Asynchronous methods are
    sequential computations in a small trace-and-exception monad: every call
    to an injected collaborator (logger, HTTP backed services, file system)
    is recorded, with its arguments and its outcome, in the trace of the
    run, and a JavaScript [throw] is the [Thrown] outcome. *)

From Stdlib Require Import ZArith Lia Bool Ascii String DecimalString List.
From stdpp Require Import base list.
Import ListNotations.

Local Open Scope string_scope.
Local Open Scope list_scope.

(** ** JavaScript values used by the services *)

Module JS.

(** [!!v] for an optional string: [undefined] and the empty string are falsy. *)
Definition truthy_string (v : option string) : bool :=
  match v with
  | None => false
  | Some s => negb (String.eqb s EmptyString)
  end.

(** [!!v] for an optional boolean. *)
Definition truthy_flag (v : option bool) : bool :=
  match v with
  | None => false
  | Some b => b
  end.

(** [!!v] for an array: every object is truthy, the empty array too. *)
Definition truthy_array {A : Type} (v : list A) : bool := true.

(** [!s] for a string. *)
Definition falsy (s : string) : bool := String.eqb s EmptyString.

(** [a || b] on optional strings with a string default. *)
Definition or_string (v : option string) (d : string) : string :=
  if truthy_string v then match v with Some s => s | None => d end else d.

(** [s.indexOf(pat)]: the position of the first occurrence, or [-1]. *)
Fixpoint indexOf_from (pat s : string) (i : nat) : Z :=
  if String.prefix pat s then Z.of_nat i
  else match s with
       | EmptyString => (-1)%Z
       | String _ s' => indexOf_from pat s' (S i)
       end.

Definition indexOf (s pat : string) : Z := indexOf_from pat s 0.

(** [_.filter(collection, predicate)]: a missing collection filters to
    the empty array. *)
Definition lodash_filter {A : Type} (collection : option (list A))
    (predicate : A -> bool) : list A :=
  match collection with
  | None => []
  | Some items => List.filter predicate items
  end.

(** The errors that are thrown: [Error] objects with the two fields the
    codesign service adds to them. *)
Record Error : Type := mkError {
  message : string;
  stderr : option string;
  buildId : option string
}.

Definition new_Error (msg : string) : Error :=
  {| message := msg; stderr := None; buildId := None |}.

Definition set_stderr (e : Error) (v : option string) : Error :=
  {| message := message e; stderr := v; buildId := buildId e |}.

Definition set_buildId (e : Error) (id : string) : Error :=
  {| message := message e; stderr := stderr e; buildId := Some id |}.

(** Property access on [undefined]. *)
Definition TypeError (what : string) : Error :=
  new_Error ("Cannot read property '" ++ what ++ "' of undefined").

(** What can be thrown and caught: an [Error] object as [new Error] makes
    it, which takes new properties; an object that takes none (frozen or
    otherwise not extensible); a string.  Collaborators may reject with any
    of these: the type of a rejection is not declared. *)
Inductive Value : Type :=
| Obj (e : Error)
| Frozen (e : Error)
| Str (text : string).

(** [Object.isExtensible(v)] *)
Definition isExtensible (v : Value) : bool :=
  match v with
  | Obj _ => true
  | Frozen _ | Str _ => false
  end.

(** The text a logger shows for a value. *)
Definition shown (v : Value) : string :=
  match v with
  | Obj e | Frozen e => message e
  | Str text => text
  end.

(** The [TypeError] of the assignment [v.prop = ...] when [v] takes no
    property; the modules are compiled in strict mode, where such an
    assignment throws.  It is asked only of values that are not
    extensible. *)
Definition AssignTypeError (v : Value) (prop : string) : Error :=
  new_Error
    match v with
    | Obj _ | Frozen _ =>
        "Cannot add property " ++ prop ++ ", object is not extensible"
    | Str text =>
        "Cannot create property '" ++ prop ++ "' on string '" ++ text ++ "'"
    end.

End JS.

Coercion JS.Obj : JS.Error >-> JS.Value.

(** [contains s sub]: [sub] occurs in [s]. *)
Definition contains (s sub : string) : Prop :=
  exists pre post : string, s = (pre ++ sub ++ post)%string.

(** ** Runs: trace, state and exceptions *)

Inductive outcome (A : Type) : Type :=
| Returned (a : A)
| Thrown (e : JS.Value).

Arguments Returned {A} a.
Arguments Thrown {A} e.

Section Run.
Context {Ev St : Type}.

(** A computation emits events, updates the state and returns or throws. *)
Definition run (A : Type) : Type := St -> list Ev * St * outcome A.

Definition ret {A} (a : A) : run A := fun s => ([], s, Returned a).

Definition throw {A} (e : JS.Value) : run A := fun s => ([], s, Thrown e).

Definition bind {A B} (m : run A) (k : A -> run B) : run B :=
  fun s =>
    match m s with
    | (t1, s1, Returned a) =>
        match k a s1 with
        | (t2, s2, o) => (t1 ++ t2, s2, o)
        end
    | (t1, s1, Thrown e) => (t1, s1, Thrown e)
    end.

(** [try { m } catch (e) { h e }] *)
Definition try_catch {A} (m : run A) (h : JS.Value -> run A) : run A :=
  fun s =>
    match m s with
    | (t1, s1, Returned a) => (t1, s1, Returned a)
    | (t1, s1, Thrown e) =>
        match h e s1 with
        | (t2, s2, o) => (t1 ++ t2, s2, o)
        end
    end.

(** A step that nobody observes and that ends as [o]. *)
Definition lift {A} (o : outcome A) : run A := fun s => ([], s, o).

(** An observable step without result. *)
Definition emit (ev : Ev) : run unit := fun s => ([ev], s, Returned tt).

(** A call to a collaborator: its outcome is recorded and becomes the
    outcome of the step. *)
Definition call {A} (record : outcome A -> Ev) (o : outcome A) : run A :=
  fun s => ([record o], s, o).

Definition events {A} (r : list Ev * St * outcome A) : list Ev := fst (fst r).
Definition final {A} (r : list Ev * St * outcome A) : St := snd (fst r).
Definition result {A} (r : list Ev * St * outcome A) : outcome A := snd r.
End Run.

Arguments run : clear implicits.

Declare Scope run_scope.
Delimit Scope run_scope with run.
Notation "'let!' x := m 'in' k" := (bind m (fun x => k))
  (at level 10, x name, m at level 100, k at level 200) : run_scope.
Notation "'do!' m 'in' k" := (bind m (fun _ => k))
  (at level 10, m at level 100, k at level 200) : run_scope.
Local Open Scope run_scope.

(** [err.buildId = buildId]: an extensible object takes the property, on
    anything else the assignment throws. *)
Definition assign_buildId (err : JS.Value) (buildId : string) : outcome JS.Value :=
  match err with
  | JS.Obj e => Returned (JS.Obj (JS.set_buildId e buildId))
  | JS.Frozen _ | JS.Str _ => Thrown (JS.Obj (JS.AssignTypeError err "buildId"))
  end.

(** [$errors.failWithoutHelp(msg)] throws an error with that message. *)
Definition failWithoutHelp {Ev St A} (msg : string) : run Ev St A :=
  throw (JS.new_Error msg).

(** ** lib/services/cloud-codesign-service.ts *)

Module CloudCodesignService.

(** The values of [../constants] the two files read. *)
Record Constants : Type := {
  DISPOSITIONS_CERTIFICATE : string;
  DISPOSITIONS_PROVISION : string;
  CODESIGN_FILES_DIR_NAME : string
}.

Record IServerItem : Type := {
  disposition : string;
  url : string
}.

Record IBuildServerResult : Type := {
  buildItems : option (list IServerItem);
  errors : option string;
  result_stderr : option string;
  result_stdout : option string
}.

Record IServerResponse : Type := {
  resultUrl : string;
  logsUrl : option string
}.

Record ICodesignData : Type := {
  username : option string;
  password : option string;
  platform : option string;
  clean : option bool;
  sharedCloud : option bool;
  attachedDevices : option (list string)
}.

Record IProjectData : Type := {
  pd_projectDir : string;
  projectId : string;
  projectName : string
}.

Record ICodeSignRequestData : Type := {
  req_buildId : string;
  req_appId : string;
  req_appName : string;
  req_clean : option bool;
  req_username : option string;
  req_password : option string;
  req_sharedCloud : option bool;
  req_devices : option (list string)
}.

Record IOutputDirectoryOptions : Type := {
  opt_projectDir : option string;
  opt_platform : option string;
  opt_emulator : bool
}.

Record ICodesignResultData : Type := {
  out_buildId : string;
  out_stderr : option string;
  out_stdout : option string;
  out_fullOutput : string;
  out_outputFilesPaths : list string
}.

(** [codesignData.clean = v] *)
Definition set_clean (d : ICodesignData) (v : option bool) : ICodesignData :=
  {| username := username d; password := password d; platform := platform d;
     clean := v; sharedCloud := sharedCloud d;
     attachedDevices := attachedDevices d |}.

Inductive level : Type := Info | Trace.

(** What the logger is given: strings, a caught error, the fetched result. *)
Inductive logArg : Type :=
| LStr (s : string)
| LErr (e : JS.Value)
| LResult (r : IBuildServerResult).

(** The observable steps of a run. *)
Inductive event : Type :=
| EvLog (lvl : level) (args : list logArg)
| EvUuid (id : string)
| EvGetProjectData (dir : string) (o : outcome IProjectData)
| EvServerGenerate (req : ICodeSignRequestData) (o : outcome IServerResponse)
| EvWait (id : string) (resp : IServerResponse) (o : outcome unit)
| EvS3Object (from : string) (o : outcome IBuildServerResult)
| EvDownload (r : IBuildServerResult) (opts : IOutputDirectoryOptions)
    (o : outcome (list string))
| EvS3Content (from : string) (o : outcome string).

(** The steps that go over the network. *)
Definition is_network (ev : event) : bool :=
  match ev with
  | EvServerGenerate _ _ | EvWait _ _ _ | EvS3Object _ _
  | EvDownload _ _ _ | EvS3Content _ _ => true
  | EvLog _ _ | EvUuid _ | EvGetProjectData _ _ => false
  end.

Definition is_uuid (ev : event) : bool :=
  match ev with EvUuid _ => true | _ => false end.

Definition is_download (ev : event) : bool :=
  match ev with EvDownload _ _ _ => true | _ => false end.

Definition is_fetch (ev : event) : bool :=
  match ev with EvS3Object _ _ => true | _ => false end.

(** The injected collaborators and the inherited [CloudService] methods,
    none of which this file defines.  [uuid_v4 n] is the identifier that
    the [n]-th call of [uuid.v4()] yields. *)
Record Services : Type := {
  uuid_v4 : nat -> string;
  getProjectData : string -> outcome IProjectData;
  sanitizeName : string -> string;
  server_generateCodesignFiles : ICodeSignRequestData -> outcome IServerResponse;
  waitForServerOperationToFinish : string -> IServerResponse -> outcome unit;
  getObjectFromS3File : string -> outcome IBuildServerResult;
  downloadServerResults :
    IBuildServerResult -> IOutputDirectoryOptions -> outcome (list string);
  getContentOfS3File : string -> outcome string;
  JSON_stringify : IServerResponse -> string;
  path_join : list string -> string;
  toLowerCase : string -> string
}.

(** The state of a run: how many identifiers [uuid.v4()] has handed out. *)
Definition M : Type -> Type := run event nat.

Definition failedError : string := "Generation of codesign files failed.".

Definition failedToStartError : string :=
  "Failed to start generation of codesign files.".

Definition SERVICE_UNAVAILABLE : string :=
  "The Code Signing Assistance service is temporary unavailable. Please try again later.".

Definition MISSING_CODESIGN_DATA : string :=
  "Codesign failed. Reason is missing code sign data. Apple Id and Apple Id password are required..".

Definition INVALID_PROJECT_PATH : string :=
  "Codesign failed. Reason is invalid project path.".

Definition codesignInformationString : string :=
  "generation of iOS certificate and provision files".

Section WithServices.
Variable C : Constants.
Variable svc : Services.

Definition logger_info (msg : string) : M unit := emit (EvLog Info [LStr msg]).

Definition logger_trace (args : list logArg) : M unit := emit (EvLog Trace args).

(** [uuid.v4()] *)
Definition uuid : M string :=
  fun n => ([EvUuid (uuid_v4 svc n)], S n, Returned (uuid_v4 svc n)).

Definition is_codesign_item (b : IServerItem) : bool :=
  String.eqb (disposition b) (DISPOSITIONS_CERTIFICATE C)
  || String.eqb (disposition b) (DISPOSITIONS_PROVISION C).

Definition getServerResults (codesignResult : IBuildServerResult)
    : M (list IServerItem) :=
  let result := JS.lodash_filter (buildItems codesignResult) is_codesign_item in
  do! (if negb (JS.truthy_array result)
       then failWithoutHelp
              ("No item with disposition " ++ DISPOSITIONS_CERTIFICATE C
               ++ " or " ++ DISPOSITIONS_PROVISION C
               ++ " found in the server result items.")
       else ret tt) in
  ret result.

(** [options.platform.toLowerCase()] is evaluated before [path.join] is
    entered; [path.join] rejects an argument that is no string. *)
Definition getServerOperationOutputDirectory (options : IOutputDirectoryOptions)
    : outcome string :=
  match opt_platform options with
  | None => Thrown (JS.TypeError "toLowerCase")
  | Some p =>
      match opt_projectDir options with
      | None =>
          Thrown (JS.new_Error "The path argument must be of type string.")
      | Some dir =>
          Returned (path_join svc [dir; CODESIGN_FILES_DIR_NAME C; toLowerCase svc p])
      end
  end.

Definition validateParameteres (codesignData : option ICodesignData)
    (projectDir : string) : M unit :=
  do! (if match codesignData with
          | None => true
          | Some d => negb (JS.truthy_string (username d))
                      || negb (JS.truthy_string (password d))
          end
       then failWithoutHelp MISSING_CODESIGN_DATA
       else ret tt) in
  if JS.falsy projectDir
  then failWithoutHelp INVALID_PROJECT_PATH
  else ret tt.

Definition prepareCodesignRequest (buildId : string)
    (codesignData : ICodesignData) (projectData : IProjectData)
    : M ICodeSignRequestData :=
  let sanitizedProjectName := sanitizeName svc (projectName projectData) in
  ret {| req_buildId := buildId;
         req_appId := projectId projectData;
         req_appName := sanitizedProjectName;
         req_clean := clean codesignData;
         req_username := username codesignData;
         req_password := password codesignData;
         req_sharedCloud := sharedCloud codesignData;
         req_devices := attachedDevices codesignData |}.

(** [!r.buildItems || !r.buildItems.length] *)
Definition no_items (r : IBuildServerResult) : bool :=
  match buildItems r with
  | None => true
  | Some items => Nat.eqb (length items) 0
  end.

Definition executeGeneration (codesignData : ICodesignData)
    (projectDir : string) (buildId : string) : M ICodesignResultData :=
  do! logger_info ("Starting " ++ codesignInformationString ++ ".") in
  let! projectData :=
    call (EvGetProjectData projectDir) (getProjectData svc projectDir) in
  let! codesignRequest :=
    prepareCodesignRequest buildId codesignData projectData in
  let! codesignResponse :=
    call (EvServerGenerate codesignRequest)
         (server_generateCodesignFiles svc codesignRequest) in
  do! logger_trace
        [LStr ("Codesign response: " ++ JSON_stringify svc codesignResponse)] in
  do! try_catch
        (call (EvWait buildId codesignResponse)
              (waitForServerOperationToFinish svc buildId codesignResponse))
        (fun ex =>
           logger_trace [LStr "Codesign generation failed with err: "; LErr ex]) in
  let! codesignResult :=
    call (EvS3Object (resultUrl codesignResponse))
         (getObjectFromS3File svc (resultUrl codesignResponse)) in
  do! logger_trace [LStr "Codesign result:"] in
  do! logger_trace [LResult codesignResult] in
  if no_items codesignResult then
    (* Something failed. *)
    let errText := JS.or_string (errors codesignResult) EmptyString in
    let! errText :=
      (if (JS.indexOf errText "403 Forbidden" >? -1)%Z
       then do! logger_trace [LStr ("Codesign errors: " ++ errText)] in
            ret SERVICE_UNAVAILABLE
       else ret errText) in
    let err := JS.new_Error ("Codesign failed. Reason is: " ++ errText ++ ".") in
    throw (JS.set_stderr err (result_stderr codesignResult))
  else
    do! logger_info ("Finished " ++ codesignInformationString
                     ++ " successfully. Downloading result...") in
    let options := {| opt_projectDir := Some (pd_projectDir projectData);
                      opt_platform := platform codesignData;
                      opt_emulator := false |} in
    let! localCodesignResults :=
      call (EvDownload codesignResult options)
           (downloadServerResults svc codesignResult options) in
    do! logger_info ("The result of " ++ codesignInformationString
                     ++ " successfully downloaded. Codesign files paths: "
                     ++ String.concat "," localCodesignResults) in
    let! fullOutput :=
      call (EvS3Content (resultUrl codesignResponse))
           (getContentOfS3File svc (resultUrl codesignResponse)) in
    ret {| out_buildId := buildId;
           out_stderr := result_stderr codesignResult;
           out_stdout := result_stdout codesignResult;
           out_fullOutput := fullOutput;
           out_outputFilesPaths := localCodesignResults |}.

Definition generateCodesignFiles (codesignData : option ICodesignData)
    (projectDir : string) : M ICodesignResultData :=
  do! validateParameteres codesignData projectDir in
  match codesignData with
  | None => throw (JS.TypeError "clean")
  | Some d =>
      let codesignData :=
        set_clean d (Some (match clean d with None => true | Some b => b end)) in
      let! buildId := uuid in
      try_catch (executeGeneration codesignData projectDir buildId)
                (fun err =>
                   let! err := lift (assign_buildId err buildId) in
                   throw err)
  end.

Definition getServerLogs (logsUrl buildId : string) : M unit := ret tt.

End WithServices.

End CloudCodesignService.

(** ** lib/commands/build-command-helper.ts *)

Module BuildCommandHelper.

Record Constants : Type := {
  CLOUD_BUILD_CONFIGURATIONS_DEBUG : string;
  CLOUD_BUILD_CONFIGURATIONS_RELEASE : string
}.

(** [$options]: the command line options the helper reads. *)
Record ICloudOptions : Type := {
  keyStorePath : option string;
  keyStorePassword : option string;
  keyStoreAlias : option string;
  keyStoreAliasPassword : option string;
  certificate : option string;
  certificatePassword : option string;
  provision : option string;
  bundle : option bool;
  clean : option bool;
  env : option string;
  release : option bool;
  emulator : option bool;
  local : option bool;
  accountId : option string;
  teamId : option string;
  device : option string;
  path : option string;
  platformTemplate : option string
}.

Record IProjectData : Type := {
  projectDir : string;
  projectId : string;
  projectName : string
}.

Record PackageJson : Type := {
  nativescript : option string
}.

Record INSCloudProjectSettings : Type := {
  ps_nativescriptData : option string;
  ps_projectDir : string;
  ps_projectId : string;
  ps_projectName : string;
  ps_bundle : bool;
  ps_clean : option bool;
  ps_env : option string
}.

Record IAndroidBuildData : Type := {
  android_pathToCertificate : string;
  android_certificatePassword : option string
}.

Record IIOSBuildData : Type := {
  ios_pathToCertificate : string;
  ios_certificatePassword : option string;
  ios_pathToProvision : string;
  ios_buildForDevice : bool
}.

Record IBuildData : Type := {
  projectSettings : INSCloudProjectSettings;
  bd_platform : string;
  buildConfiguration : string;
  androidBuildData : IAndroidBuildData;
  iOSBuildData : IIOSBuildData
}.

(** The second argument of [$localBuildService.build]. *)
Record ILocalBuildOptions : Type := {
  lb_release : bool;
  lb_buildForDevice : bool;
  lb_clean : option bool;
  lb_teamId : option string;
  lb_bundle : bool;
  lb_device : option string;
  lb_projectDir : option string;
  lb_provision : option string;
  lb_keyStoreAlias : option string;
  lb_keyStoreAliasPassword : option string;
  lb_keyStorePassword : option string;
  lb_keyStorePath : option string;
  lb_env : option string
}.

Record IQrData : Type := {
  originalUrl : string
}.

Record IBuildResultData : Type := {
  qrData : option IQrData
}.

(** [buildData.buildConfiguration = v] *)
Definition set_buildConfiguration (d : IBuildData) (v : string) : IBuildData :=
  {| projectSettings := projectSettings d; bd_platform := bd_platform d;
     buildConfiguration := v; androidBuildData := androidBuildData d;
     iOSBuildData := iOSBuildData d |}.

Inductive event : Type :=
| EvInfo (msg : string)
| EvValidatePlatformName (arg : string) (o : outcome string)
| EvReadJson (file : string) (o : outcome PackageJson)
| EvLocalBuild (platform : string) (opts : ILocalBuildOptions)
    (template : option string) (o : outcome string)
| EvCloudBuild (settings : INSCloudProjectSettings) (platform : string)
    (configuration : string) (account : option string)
    (android : IAndroidBuildData) (ios : IIOSBuildData)
    (o : outcome IBuildResultData).

(** The injected services and the imported helpers. *)
Record Services : Type := {
  validatePlatformName : string -> outcome string;
  isAndroidPlatform : string -> bool;
  isiOSPlatform : string -> bool;
  platformNames : list string;
  readJson : string -> outcome PackageJson;
  path_join : list string -> string;
  path_resolve : string -> string;
  getProjectId : IProjectData -> string -> string;
  toLowerCase : string -> string;
  localBuild :
    string -> ILocalBuildOptions -> option string -> outcome string;
  cloudBuild :
    INSCloudProjectSettings -> string -> string -> option string ->
    IAndroidBuildData -> IIOSBuildData -> outcome IBuildResultData
}.

Definition M : Type -> Type := run event unit.

Section WithServices.
Variable C : Constants.
Variable svc : Services.
Variable options : ICloudOptions.
Variable projectData : IProjectData.

Definition logger_info (msg : string) : M unit := emit (EvInfo msg).

(** [v ? path.resolve(v) : empty]: the resolved path of a given option,
    the empty string otherwise. *)
Definition resolved (v : option string) : string :=
  match v with
  | Some p => if JS.truthy_string v then path_resolve svc p else EmptyString
  | None => EmptyString
  end.

Definition getCloudBuildData (platformArg : string) : M IBuildData :=
  let! platform :=
    call (EvValidatePlatformName platformArg)
         (validatePlatformName svc platformArg) in
  do! logger_info ("Executing cloud build with platform: " ++ platform ++ ".") in
  let packageJson := path_join svc [projectDir projectData; "package.json"] in
  let! json := call (EvReadJson packageJson) (readJson svc packageJson) in
  let nativescriptData := nativescript json in
  let! pathToCertificate :=
    (if isAndroidPlatform svc platform
     then ret (resolved (keyStorePath options))
     else if isiOSPlatform svc platform
     then ret (resolved (certificate options))
     else failWithoutHelp
            ("Currently only " ++ String.concat " " (platformNames svc)
             ++ " platforms are supported.")) in
  let pathToProvision := resolved (provision options) in
  let projectId := getProjectId svc projectData (toLowerCase svc platform) in
  let projectSettings :=
    {| ps_nativescriptData := nativescriptData;
       ps_projectDir := projectDir projectData;
       ps_projectId := projectId;
       ps_projectName := projectName projectData;
       ps_bundle := JS.truthy_flag (bundle options);
       ps_clean := clean options;
       ps_env := env options |} in
  let buildConfiguration :=
    if JS.truthy_flag (release options)
    then CLOUD_BUILD_CONFIGURATIONS_RELEASE C
    else CLOUD_BUILD_CONFIGURATIONS_DEBUG C in
  ret {| projectSettings := projectSettings;
         bd_platform := platform;
         buildConfiguration := buildConfiguration;
         androidBuildData :=
           {| android_pathToCertificate := pathToCertificate;
              android_certificatePassword := keyStorePassword options |};
         iOSBuildData :=
           {| ios_pathToCertificate := pathToCertificate;
              ios_certificatePassword := certificatePassword options;
              ios_pathToProvision := pathToProvision;
              ios_buildForDevice := negb (JS.truthy_flag (emulator options)) |} |}.

Definition buildForPublishingPlatform (platformArg : string) : M string :=
  let! platform :=
    call (EvValidatePlatformName platformArg)
         (validatePlatformName svc platformArg) in
  if JS.truthy_flag (local options) then
    let opts :=
      {| lb_release := true;
         lb_buildForDevice := true;
         lb_clean := clean options;
         lb_teamId := teamId options;
         lb_bundle := JS.truthy_flag (bundle options);
         lb_device := device options;
         lb_projectDir := path options;
         lb_provision := provision options;
         lb_keyStoreAlias := keyStoreAlias options;
         lb_keyStoreAliasPassword := keyStoreAliasPassword options;
         lb_keyStorePassword := keyStorePassword options;
         lb_keyStorePath := keyStorePath options;
         lb_env := env options |} in
    call (EvLocalBuild platform opts (platformTemplate options))
         (localBuild svc platform opts (platformTemplate options))
  else
    let! buildData := getCloudBuildData platform in
    let buildData :=
      set_buildConfiguration buildData (CLOUD_BUILD_CONFIGURATIONS_RELEASE C) in
    let! built :=
      call (EvCloudBuild (projectSettings buildData) (bd_platform buildData)
              (buildConfiguration buildData) (accountId options)
              (androidBuildData buildData) (iOSBuildData buildData))
           (cloudBuild svc (projectSettings buildData) (bd_platform buildData)
              (buildConfiguration buildData) (accountId options)
              (androidBuildData buildData) (iOSBuildData buildData)) in
    match qrData built with
    | None => throw (JS.TypeError "originalUrl")
    | Some qr => ret (originalUrl qr)
    end.

End WithServices.

End BuildCommandHelper.


(** ** Vocabulary of the statements about the codesign service *)

Module CodesignSpec.
Import CloudCodesignService.

(** The errors text of a manifest: [codesignResult.errors], or the empty
    string when there is none. *)
Definition errors_text (r : IBuildServerResult) : string :=
  JS.or_string (errors r) EmptyString.

(** The calls that validation rejects: no codesign data, a username or a
    password that is missing (or empty), or an empty project path. *)
Definition rejected (codesignData : option ICodesignData) (projectDir : string)
    : Prop :=
  codesignData = None
  \/ (exists d, codesignData = Some d
                /\ (JS.truthy_string (username d) = false
                    \/ JS.truthy_string (password d) = false))
  \/ projectDir = EmptyString.

(** A logger argument shows the text [s]. *)
Definition mentions (a : logArg) (s : string) : Prop :=
  match a with
  | LStr t => contains t s
  | LErr e => contains (JS.shown e) s
  | LResult r => contains (errors_text r) s
  end.

(** What the catch block of [generateCodesignFiles] throws when it has
    caught [err]: [err] with the [buildId], or the error of the assignment. *)
Definition rethrown (err : JS.Value) (buildId : string) : JS.Value :=
  match assign_buildId err buildId with
  | Returned annotated => annotated
  | Thrown e => e
  end.

(** The same services with another [waitForServerOperationToFinish]. *)
Definition with_wait (svc : Services)
    (wait : string -> IServerResponse -> outcome unit) : Services :=
  {| uuid_v4 := uuid_v4 svc;
     getProjectData := getProjectData svc;
     sanitizeName := sanitizeName svc;
     server_generateCodesignFiles := server_generateCodesignFiles svc;
     waitForServerOperationToFinish := wait;
     getObjectFromS3File := getObjectFromS3File svc;
     downloadServerResults := downloadServerResults svc;
     getContentOfS3File := getContentOfS3File svc;
     JSON_stringify := JSON_stringify svc;
     path_join := path_join svc;
     toLowerCase := toLowerCase svc |}.

(** *** A small world to run the service in *)

Definition sample_constants : Constants :=
  {| DISPOSITIONS_CERTIFICATE := "Certificate";
     DISPOSITIONS_PROVISION := "Provision";
     CODESIGN_FILES_DIR_NAME := "codesign_files" |}.

Definition sample_project : IProjectData :=
  {| pd_projectDir := "/work/app";
     projectId := "org.nativescript.app";
     projectName := "app" |}.

Definition sample_response : IServerResponse :=
  {| resultUrl := "https://results.example/codesign.json"; logsUrl := None |}.

(** Every collaborator succeeds, except that polling ends as [wait] says
    and that the manifest behind the result URL is [manifest]. *)
Definition sample_services (wait : outcome unit) (manifest : IBuildServerResult)
    : Services :=
  {| uuid_v4 := fun n => ("build-" ++ NilEmpty.string_of_uint (Nat.to_uint n))%string;
     getProjectData := fun _ => Returned sample_project;
     sanitizeName := fun name => name;
     server_generateCodesignFiles := fun _ => Returned sample_response;
     waitForServerOperationToFinish := fun _ _ => wait;
     getObjectFromS3File := fun _ => Returned manifest;
     downloadServerResults :=
       fun r _ => Returned (map url (JS.lodash_filter (buildItems r)
                                       (is_codesign_item sample_constants)));
     getContentOfS3File := fun _ => Returned "full output";
     JSON_stringify := fun r => resultUrl r;
     path_join := String.concat "/";
     toLowerCase := fun p => if String.eqb p "iOS" then "ios" else p |}.

Definition sample_codesignData : ICodesignData :=
  {| username := Some "dev@example.com";
     password := Some "secret";
     platform := Some "iOS";
     clean := None;
     sharedCloud := None;
     attachedDevices := None |}.

Definition certificate_item : IServerItem :=
  {| disposition := "Certificate"; url := "https://results.example/dev.p12" |}.

Definition provision_item : IServerItem :=
  {| disposition := "Provision";
     url := "https://results.example/dev.mobileprovision" |}.

Definition package_item : IServerItem :=
  {| disposition := "BuildResult"; url := "https://results.example/app.ipa" |}.

Definition signed_manifest : IBuildServerResult :=
  {| buildItems := Some [certificate_item; package_item; provision_item];
     errors := None; result_stderr := None; result_stdout := Some "done" |}.

Definition failed_manifest : IBuildServerResult :=
  {| buildItems := Some [];
     errors := Some "Invalid Apple Id";
     result_stderr := Some "login failed"; result_stdout := None |}.

Definition forbidden_manifest : IBuildServerResult :=
  {| buildItems := None;
     errors := Some "Request failed: 403 Forbidden";
     result_stderr := None; result_stdout := None |}.

Definition polling_timeout : JS.Error := JS.new_Error "Codesign timed out.".

End CodesignSpec.

(** ** Vocabulary of the statements about the build command helper *)

Module BuildSpec.
Import BuildCommandHelper.

Definition sample_build_constants : Constants :=
  {| CLOUD_BUILD_CONFIGURATIONS_DEBUG := "Debug";
     CLOUD_BUILD_CONFIGURATIONS_RELEASE := "Release" |}.

Definition sample_build_services : Services :=
  {| validatePlatformName := fun arg => Returned arg;
     isAndroidPlatform := fun p => String.eqb p "Android";
     isiOSPlatform := fun p => String.eqb p "iOS";
     platformNames := ["iOS"; "Android"];
     readJson := fun _ => Returned {| nativescript := Some "{}" |};
     path_join := String.concat "/";
     path_resolve := fun p => ("/work/" ++ p)%string;
     getProjectId := fun data _ => projectId data;
     toLowerCase := fun p => if String.eqb p "Android" then "android" else p;
     localBuild := fun _ _ _ => Returned "/work/app/platforms/app.apk";
     cloudBuild :=
       fun _ _ _ _ _ _ =>
         Returned {| qrData := Some {| originalUrl := "https://builds.example/app.apk" |} |}
  |}.

(** A debug build is asked for, and [local] is not set. *)
Definition sample_build_options : ICloudOptions :=
  {| keyStorePath := Some "debug.keystore"; keyStorePassword := Some "android";
     keyStoreAlias := None; keyStoreAliasPassword := None;
     certificate := None; certificatePassword := None; provision := None;
     bundle := None; clean := None; env := None;
     release := Some false; emulator := None; local := None;
     accountId := Some "1"; teamId := None; device := None; path := None;
     platformTemplate := None |}.

Definition sample_build_project : IProjectData :=
  {| projectDir := "/work/app";
     projectId := "org.nativescript.app";
     projectName := "app" |}.

End BuildSpec.


(** ** BuildCommandHelper.getAppleCredentials *)

(** [$prompter]: the two questions the commands ask.  [getString] takes the
    [allowEmpty] option it is called with. *)
Record IPrompter : Type := {
  getString : string -> bool -> outcome string;
  getPassword : string -> outcome string
}.

Module AppleCredentials.

Record ICredentials : Type := {
  username : string;
  password : string
}.

Inductive event : Type :=
| EvGetString (prompt : string) (allowEmpty : bool) (o : outcome string)
| EvGetPassword (prompt : string) (o : outcome string).

Definition is_prompt_for (prompt : string) (ev : event) : bool :=
  match ev with
  | EvGetString p _ _ | EvGetPassword p _ => String.eqb p prompt
  end.

Definition M : Type -> Type := run event unit.

Section WithPrompter.
Variable prompter : IPrompter.

(** [args[0]], [args[1]] are [undefined] past the end of [args]. *)
Definition getAppleCredentials (args : list string) : M ICredentials :=
  let username := nth_error args 0 in
  let password := nth_error args 1 in
  let! username :=
    (match username with
     | Some given =>
         if JS.truthy_string username then ret given
         else call (EvGetString "Apple ID" false)
                   (getString prompter "Apple ID" false)
     | None => call (EvGetString "Apple ID" false)
                    (getString prompter "Apple ID" false)
     end) in
  let! password :=
    (match password with
     | Some given =>
         if JS.truthy_string password then ret given
         else call (EvGetPassword "Apple ID password")
                   (getPassword prompter "Apple ID password")
     | None => call (EvGetPassword "Apple ID password")
                    (getPassword prompter "Apple ID password")
     end) in
  ret {| username := username; password := password |}.

End WithPrompter.

(** A prompter that answers every question. *)
Definition sample_prompter : IPrompter :=
  {| getString := fun _ _ => Returned "dev@example.com";
     getPassword := fun _ => Returned "secret" |}.

End AppleCredentials.

(** ** lib/commands/clean/clean-cloud-workspace.ts *)

Module CleanCloudWorkspace.

Definition COMMAND_REQUIREMENTS_ERROR_MESSAGE : string :=
  "The command should be executed inside project or the app id and project name parameters must be provided.".

Record IProjectData : Type := {
  projectId : string;
  projectName : string
}.

Inductive event : Type :=
| EvInitializeProjectData (o : outcome IProjectData)
| EvGetString (prompt : string) (allowEmpty : bool) (o : outcome string)
| EvCleanupProject (appIdentifier projectName : string) (o : outcome unit)
| EvEnsureEulaIsAccepted (o : outcome unit).

Definition is_cleanup (ev : event) : bool :=
  match ev with EvCleanupProject _ _ _ => true | _ => false end.

Definition is_prompt (ev : event) : bool :=
  match ev with EvGetString _ _ _ => true | _ => false end.

Definition is_initialize (ev : event) : bool :=
  match ev with EvInitializeProjectData _ => true | _ => false end.

(** The injected services and the helpers of [../../helpers].
    [initializeProjectData] yields the project data as they are after the
    call, or throws outside of a project. *)
Record Services : Type := {
  initializeProjectData : outcome IProjectData;
  prompter : IPrompter;
  cleanupProject : string -> string -> outcome unit;
  ensureEulaIsAccepted : outcome unit;
  isInteractive : bool;
  trim : string -> string
}.

Definition M : Type -> Type := run event unit.

Section WithServices.
Variable svc : Services.

Definition promptForProjectName : M string :=
  do! (if negb (isInteractive svc)
       then failWithoutHelp COMMAND_REQUIREMENTS_ERROR_MESSAGE
       else ret tt) in
  call (EvGetString "Project name:" false)
       (getString (prompter svc) "Project name:" false).

Definition promptForAppId : M string :=
  do! (if negb (isInteractive svc)
       then failWithoutHelp COMMAND_REQUIREMENTS_ERROR_MESSAGE
       else ret tt) in
  call (EvGetString "App Id:" false)
       (getString (prompter svc) "App Id:" false).

Definition getParameterValue (param : string) (action : M string) : M string :=
  if (0 <? String.length (trim svc param))%nat then ret param else action.

Definition execute (args : list string) : M unit :=
  let! identity :=
    (match args with
     | [] =>
         try_catch
           ((* We want to use the project data only when no parameters are
               provided. *)
            let! data :=
              call EvInitializeProjectData (initializeProjectData svc) in
            ret (projectId data, projectName data))
           (fun err =>
              (* We are not in project and the app id and project name
                 parameters are not provided. *)
              let! appIdentifier := promptForAppId in
              let! projectName := promptForProjectName in
              ret (appIdentifier, projectName))
     | [arg0] =>
         (* Only app id is provided. *)
         let! appIdentifier := getParameterValue arg0 promptForAppId in
         let! projectName := promptForProjectName in
         ret (appIdentifier, projectName)
     | arg0 :: arg1 :: _ =>
         (* Both app id and project name are provided as parameters. *)
         let! appIdentifier := getParameterValue arg0 promptForAppId in
         let! projectName := getParameterValue arg1 promptForProjectName in
         ret (appIdentifier, projectName)
     end) in
  let appIdentifier := fst identity in
  let projectName := snd identity in
  do! call (EvCleanupProject appIdentifier projectName)
           (cleanupProject svc appIdentifier projectName) in
  ret tt.

(** [args] may be missing altogether. *)
Definition canExecute (args : option (list string)) : M bool :=
  match args with
  | None => ret false
  | Some args =>
      if (2 <? length args)%nat then ret false
      else
        do! call EvEnsureEulaIsAccepted (ensureEulaIsAccepted svc) in
        ret true
  end.

End WithServices.

(** A terminal session inside a project; [trim] strips blanks. *)
Fixpoint strip_left (s : string) : string :=
  match s with
  | String c rest => if Ascii.eqb c " " then strip_left rest else s
  | EmptyString => EmptyString
  end.

Definition sample_services (interactive : bool) (inProject : bool) : Services :=
  {| initializeProjectData :=
       if inProject
       then Returned {| projectId := "org.nativescript.app"; projectName := "app" |}
       else Thrown (JS.new_Error "No project found.");
     prompter :=
       {| getString := fun prompt _ => Returned ("answer to " ++ prompt)%string;
          getPassword := fun _ => Returned "secret" |};
     cleanupProject := fun _ _ => Returned tt;
     ensureEulaIsAccepted := Returned tt;
     isInteractive := interactive;
     trim := strip_left |}.

End CleanCloudWorkspace.

(** ** More vocabulary for the codesign service *)

Module CodesignProtocol.
Import CloudCodesignService.

(** The place of a network step in the protocol of one generation:
    submit, poll, fetch the manifest, download, read the full output. *)
Definition stage (ev : event) : option nat :=
  match ev with
  | EvServerGenerate _ _ => Some 0
  | EvWait _ _ _ => Some 1
  | EvS3Object _ _ => Some 2
  | EvDownload _ _ _ => Some 3
  | EvS3Content _ _ => Some 4
  | EvLog _ _ | EvUuid _ | EvGetProjectData _ _ => None
  end.

(** The stages of the network steps of a trace, in order. *)
Definition stages (t : list event) : list nat := omap stage t.

End CodesignProtocol.

(** ** Vocabulary for the prompting commands *)

Module PromptSpec.

(** The questions of a run of [clean workspace], in the order asked. *)
Definition asked (ev : CleanCloudWorkspace.event) : option string :=
  match ev with
  | CleanCloudWorkspace.EvGetString prompt _ _ => Some prompt
  | _ => None
  end.

(** The questions of a run of [getAppleCredentials], in the order asked. *)
Definition credential_asked (ev : AppleCredentials.event) : option string :=
  match ev with
  | AppleCredentials.EvGetString prompt _ _ => Some prompt
  | AppleCredentials.EvGetPassword prompt _ => Some prompt
  end.

(** What [execute] makes of the outcome of [cleanupProject]. *)
Definition after_cleanup (o : outcome unit) : outcome unit :=
  match o with
  | Returned _ => Returned tt
  | Thrown e => Thrown e
  end.

End PromptSpec.

(** ** Two more worlds for the codesign service *)

Module CodesignWorlds.
Import CloudCodesignService CodesignSpec.

(** The server refuses to start the generation. *)
Definition refusing_services : Services :=
  let base := sample_services (Returned tt) signed_manifest in
  {| uuid_v4 := uuid_v4 base;
     getProjectData := getProjectData base;
     sanitizeName := sanitizeName base;
     server_generateCodesignFiles := fun _ => Thrown (JS.new_Error failedToStartError);
     waitForServerOperationToFinish := waitForServerOperationToFinish base;
     getObjectFromS3File := getObjectFromS3File base;
     downloadServerResults := downloadServerResults base;
     getContentOfS3File := getContentOfS3File base;
     JSON_stringify := JSON_stringify base;
     path_join := path_join base;
     toLowerCase := toLowerCase base |}.

(** The server call rejects with a string, not with an error object. *)
Definition string_rejecting_services : Services :=
  let base := sample_services (Returned tt) signed_manifest in
  {| uuid_v4 := uuid_v4 base;
     getProjectData := getProjectData base;
     sanitizeName := sanitizeName base;
     server_generateCodesignFiles := fun _ => Thrown (JS.Str "failed");
     waitForServerOperationToFinish := waitForServerOperationToFinish base;
     getObjectFromS3File := getObjectFromS3File base;
     downloadServerResults := downloadServerResults base;
     getContentOfS3File := getContentOfS3File base;
     JSON_stringify := JSON_stringify base;
     path_join := path_join base;
     toLowerCase := toLowerCase base |}.

(** The project directory holds no project. *)
Definition projectless_services : Services :=
  let base := sample_services (Returned tt) signed_manifest in
  {| uuid_v4 := uuid_v4 base;
     getProjectData := fun _ => Thrown (JS.new_Error "No project found.");
     sanitizeName := sanitizeName base;
     server_generateCodesignFiles := server_generateCodesignFiles base;
     waitForServerOperationToFinish := waitForServerOperationToFinish base;
     getObjectFromS3File := getObjectFromS3File base;
     downloadServerResults := downloadServerResults base;
     getContentOfS3File := getContentOfS3File base;
     JSON_stringify := JSON_stringify base;
     path_join := path_join base;
     toLowerCase := toLowerCase base |}.

(** The manifest lists a package only. *)
Definition package_manifest : IBuildServerResult :=
  {| buildItems := Some [package_item];
     errors := None; result_stderr := None; result_stdout := None |}.

(** The request of the sample call when its build id is [id]. *)
Definition sample_request (id : string) : ICodeSignRequestData :=
  {| req_buildId := id;
     req_appId := "org.nativescript.app";
     req_appName := "app";
     req_clean := Some true;
     req_username := Some "dev@example.com";
     req_password := Some "secret";
     req_sharedCloud := None;
     req_devices := None |}.

Definition sample_download_options : IOutputDirectoryOptions :=
  {| opt_projectDir := Some "/work/app";
     opt_platform := Some "iOS";
     opt_emulator := false |}.

(** The message of the validation error of a call. *)
Definition validation_message (codesignData : option ICodesignData) : string :=
  match codesignData with
  | None => MISSING_CODESIGN_DATA
  | Some d =>
      if JS.truthy_string (username d) && JS.truthy_string (password d)
      then INVALID_PROJECT_PATH
      else MISSING_CODESIGN_DATA
  end.

End CodesignWorlds.

(** ** Two more worlds for the build command helper *)

Module BuildWorlds.
Import BuildCommandHelper BuildSpec.

(** The platform name is checked: only Android and iOS pass. *)
Definition strict_build_services : Services :=
  {| validatePlatformName :=
       fun arg =>
         if String.eqb arg "Android" || String.eqb arg "iOS"
         then Returned arg
         else Thrown (JS.new_Error "Invalid platform.");
     isAndroidPlatform := isAndroidPlatform sample_build_services;
     isiOSPlatform := isiOSPlatform sample_build_services;
     platformNames := platformNames sample_build_services;
     readJson := readJson sample_build_services;
     path_join := path_join sample_build_services;
     path_resolve := path_resolve sample_build_services;
     getProjectId := getProjectId sample_build_services;
     toLowerCase := toLowerCase sample_build_services;
     localBuild := localBuild sample_build_services;
     cloudBuild := cloudBuild sample_build_services |}.

(** The options of [sample_build_options] with [--local] and [--emulator]. *)
Definition local_build_options : ICloudOptions :=
  {| keyStorePath := Some "debug.keystore"; keyStorePassword := Some "android";
     keyStoreAlias := None; keyStoreAliasPassword := None;
     certificate := None; certificatePassword := None; provision := None;
     bundle := None; clean := None; env := None;
     release := Some false; emulator := Some true; local := Some true;
     accountId := Some "1"; teamId := None; device := None;
     path := Some "/work/app"; platformTemplate := None |}.

End BuildWorlds.
(** * Properties *)

(** ** Strings: occurrences and [indexOf] *)

Section StringFacts.

Lemma append_assoc' (a b c : string) :
  ((a ++ b) ++ c)%string = (a ++ b ++ c)%string.
Proof.
  induction a as [|x a IH]; simpl; [reflexivity | now rewrite IH].
Qed.

Lemma append_empty_r (a : string) : (a ++ EmptyString)%string = a.
Proof.
  induction a as [|x a IH]; simpl; [reflexivity | now rewrite IH].
Qed.

Lemma prefix_append (p s : string) : String.prefix p (p ++ s) = true.
Proof.
  induction p as [|x p IH]; simpl.
  - now destruct s.
  - destruct (ascii_dec x x) as [_|N]; [exact IH | now destruct N].
Qed.

Lemma prefix_split (p s : string) :
  String.prefix p s = true -> exists post, s = (p ++ post)%string.
Proof.
  revert s; induction p as [|x p IH]; intros s H.
  - now exists s.
  - destruct s as [|y s]; simpl in H; [discriminate|].
    destruct (ascii_dec x y) as [->|_]; [|discriminate].
    destruct (IH _ H) as [post ->]. now exists post.
Qed.

Lemma contains_refl (s : string) : contains s s.
Proof. exists EmptyString, EmptyString. simpl. now rewrite append_empty_r. Qed.

Lemma contains_trans (a b c : string) :
  contains a b -> contains b c -> contains a c.
Proof.
  intros (p1 & q1 & ->) (p2 & q2 & ->).
  exists (p1 ++ p2)%string, (q2 ++ q1)%string.
  now rewrite !append_assoc'.
Qed.

Lemma contains_infix (pre s post : string) : contains (pre ++ s ++ post) s.
Proof. now exists pre, post. Qed.

Lemma indexOf_from_found (pat s : string) (i : nat) :
  (JS.indexOf_from pat s i > -1)%Z -> contains s pat.
Proof.
  revert i; induction s as [|x s IH]; intros i H; cbn [JS.indexOf_from] in H.
  - destruct (String.prefix pat EmptyString) eqn:E; [|lia].
    destruct (prefix_split _ _ E) as [post Hp].
    exists EmptyString, post. exact Hp.
  - destruct (String.prefix pat (String x s)) eqn:E.
    + destruct (prefix_split _ _ E) as [post Hp].
      exists EmptyString, post. exact Hp.
    + destruct (IH _ H) as (pre & post & ->).
      now exists (String x pre), post.
Qed.

Lemma indexOf_from_lower (pat s : string) (i : nat) :
  (-1 <= JS.indexOf_from pat s i)%Z.
Proof.
  revert i; induction s as [|x s IH]; intros i; cbn [JS.indexOf_from].
  - destruct (String.prefix pat EmptyString); lia.
  - destruct (String.prefix pat (String x s)); [lia | apply IH].
Qed.

Lemma indexOf_from_prefix (pat s : string) (i : nat) :
  String.prefix pat s = true -> (JS.indexOf_from pat s i > -1)%Z.
Proof.
  intros H. destruct s; cbn [JS.indexOf_from]; rewrite H; lia.
Qed.

Lemma indexOf_from_complete (pat pre post : string) (i : nat) :
  (JS.indexOf_from pat (pre ++ pat ++ post) i > -1)%Z.
Proof.
  revert i; induction pre as [|x pre IH]; intros i.
  - cbn [append]. apply indexOf_from_prefix, prefix_append.
  - cbn [append JS.indexOf_from].
    destruct (String.prefix pat (String x (pre ++ pat ++ post))); [lia|apply IH].
Qed.

(** [s.indexOf(pat) > -1] says that [pat] occurs in [s]. *)
Lemma indexOf_contains (s pat : string) :
  (JS.indexOf s pat >? -1)%Z = true <-> contains s pat.
Proof.
  unfold JS.indexOf. rewrite Z.gtb_gt. split.
  - apply indexOf_from_found.
  - intros (pre & post & ->). apply indexOf_from_complete.
Qed.

Lemma indexOf_absent (s pat : string) :
  (JS.indexOf s pat >? -1)%Z = false -> ~ contains s pat.
Proof.
  intros H Hc. apply indexOf_contains in Hc. congruence.
Qed.

End StringFacts.

(** ** The codesign service *)

Module CodesignTheory.
Import CloudCodesignService CodesignSpec.

Ltac unfold_run :=
  unfold logger_info, logger_trace, uuid, failWithoutHelp,
    bind, try_catch, call, emit, ret, throw, events, final, result in *.

(** Split on the next undetermined outcome or test of a run. *)
Ltac split_run :=
  match goal with
  | |- context [match ?o with Returned _ => _ | Thrown _ => _ end] =>
      destruct o eqn:?
  | |- context [if ?b then _ else _] => destruct b eqn:?
  | H : context [match ?o with Returned _ => _ | Thrown _ => _ end] |- _ =>
      destruct o eqn:?
  | H : context [if ?b then _ else _] |- _ => destruct b eqn:?
  end.

Section Facts.
Variable C : Constants.
Variable svc : Services.

Lemma validateParameteres_silent codesignData projectDir n :
  events (validateParameteres codesignData projectDir n) = []
  /\ final (validateParameteres codesignData projectDir n) = n.
Proof.
  unfold validateParameteres. unfold_run.
  destruct codesignData as [d|]; cbn;
    repeat (split_run; cbn); auto.
Qed.

Lemma validateParameteres_passes codesignData projectDir n :
  result (validateParameteres codesignData projectDir n) = Returned tt ->
  exists d, codesignData = Some d
            /\ JS.truthy_string (username d) = true
            /\ JS.truthy_string (password d) = true
            /\ JS.falsy projectDir = false
            /\ validateParameteres codesignData projectDir n = ([], n, Returned tt).
Proof.
  unfold validateParameteres. unfold_run.
  destruct codesignData as [d|]; cbn; [|discriminate].
  destruct (JS.truthy_string (username d)) eqn:Hu; cbn; [|discriminate].
  destruct (JS.truthy_string (password d)) eqn:Hp; cbn; [|discriminate].
  destruct (JS.falsy projectDir) eqn:Hd; cbn; [discriminate|].
  intros _. exists d. repeat split; assumption.
Qed.

Lemma validateParameteres_rejects codesignData projectDir n :
  rejected codesignData projectDir ->
  exists e : JS.Error,
    validateParameteres codesignData projectDir n = ([], n, Thrown e)
            /\ JS.buildId e = None
            /\ (JS.message e = MISSING_CODESIGN_DATA
                \/ JS.message e = INVALID_PROJECT_PATH).
Proof.
  intros H. unfold validateParameteres. unfold_run.
  destruct codesignData as [d|]; cbn.
  - destruct (JS.truthy_string (username d)) eqn:Hu; cbn;
      [|eexists; repeat split; auto].
    destruct (JS.truthy_string (password d)) eqn:Hp; cbn;
      [|eexists; repeat split; auto].
    destruct H as [H|[(d' & [= <-] & [H|H])| ->]]; try congruence.
    cbn. eexists; repeat split; auto.
  - eexists; repeat split; auto.
Qed.

Lemma validateParameteres_dichotomy codesignData projectDir n :
  validateParameteres codesignData projectDir n = ([], n, Returned tt)
  \/ exists e, validateParameteres codesignData projectDir n = ([], n, Thrown e).
Proof.
  unfold validateParameteres. unfold_run.
  destruct codesignData as [d|]; cbn;
    repeat (split_run; cbn); eauto.
Qed.

(** An accepted call draws the identifier and runs the generation, and
    marks the error that comes out of it. *)
Lemma accepted_call d projectDir n :
  validateParameteres (Some d) projectDir n = ([], n, Returned tt) ->
  generateCodesignFiles svc (Some d) projectDir n =
  let id := uuid_v4 svc n in
  let codesignData :=
    set_clean d (Some (match clean d with None => true | Some b => b end)) in
  match executeGeneration svc codesignData projectDir id (S n) with
  | (t, s, Returned v) => (EvUuid id :: t, s, Returned v)
  | (t, s, Thrown e) => (EvUuid id :: t, s, Thrown (rethrown e id))
  end.
Proof.
  intros Hrun. unfold generateCodesignFiles. unfold bind at 1. rewrite Hrun.
  unfold bind at 1, uuid, try_catch. cbv zeta.
  destruct (executeGeneration _ _ _ _ _) as [[t s] [v|e]];
    [cbn [app]; rewrite ?app_nil_r; reflexivity|].
  unfold rethrown, bind, lift, throw.
  destruct e; cbn [assign_buildId app]; rewrite ?app_nil_r; reflexivity.
Qed.

(** A rejected call leaves no event behind. *)
Lemma rejected_call_silent codesignData projectDir n e :
  validateParameteres codesignData projectDir n = ([], n, Thrown e) ->
  generateCodesignFiles svc codesignData projectDir n = ([], n, Thrown e).
Proof.
  intros Hrun. unfold generateCodesignFiles, bind. now rewrite Hrun.
Qed.

(** Once validation has passed, [uuid.v4()] is drawn exactly once and
    before anything else happens; the request, the polling and the returned
    data carry that identifier.  What leaves the call by [throw] is an error
    object, and it carries the identifier too unless it is the [TypeError]
    of the assignment in the catch block, which is thrown as it is when
    what was caught takes no property. *)
Theorem buildId_generated_once codesignData projectDir n :
  result (validateParameteres codesignData projectDir n) = Returned tt ->
  let r := generateCodesignFiles svc codesignData projectDir n in
  let id := uuid_v4 svc n in
  (exists rest,
      events r = EvUuid id :: rest
      /\ Forall (fun ev => is_uuid ev = false) rest
      /\ Forall (fun ev =>
                   match ev with
                   | EvServerGenerate req _ => req_buildId req = id
                   | EvWait b _ _ => b = id
                   | _ => True
                   end) rest)
  /\ final r = S n
  /\ (forall thrown,
        result r = Thrown thrown ->
        exists e : JS.Error,
          thrown = JS.Obj e
          /\ (JS.buildId e = Some id
              \/ exists caught,
                  JS.isExtensible caught = false
                  /\ e = JS.AssignTypeError caught "buildId"
                  /\ JS.buildId e = None))
  /\ (forall v, result r = Returned v -> out_buildId v = id).
Proof.
  intros Hv. apply validateParameteres_passes in Hv.
  destruct Hv as (d & -> & _ & _ & _ & Hrun).
  cbv zeta. rewrite (accepted_call d projectDir n Hrun). cbv zeta.
  unfold executeGeneration, prepareCodesignRequest. unfold_run. cbn [app fst snd].
  repeat (split_run; cbn [app fst snd]).
  all: repeat split;
    try (eexists; split; [reflexivity|split; repeat constructor]);
    try (intros ? [= <-]; reflexivity); try discriminate.
  all: intros thrown [= <-].
  all: try (eexists; split; [reflexivity|left; reflexivity]).
  all: match goal with
       | |- context [rethrown ?caught _] =>
           destruct caught; unfold rethrown; cbn [assign_buildId];
           eexists; (split; [reflexivity|]);
           first [ left; reflexivity
                 | right; eexists; repeat split; reflexivity ]
       end.
Qed.

(** C4: a call without codesign data, without username or password, or
    with an empty project path throws the validation error at once: the
    run has no event at all (no network call, no [uuid.v4()]), the state
    is untouched and the error carries no [buildId]. *)
Theorem validation_fails_before_any_call codesignData projectDir n :
  rejected codesignData projectDir ->
  let r := generateCodesignFiles svc codesignData projectDir n in
  exists e : JS.Error,
    result r = Thrown e
    /\ events r = []
    /\ List.filter (fun ev => is_network ev || is_uuid ev) (events r) = []
    /\ final r = n
    /\ JS.buildId e = None
    /\ (JS.message e = MISSING_CODESIGN_DATA
        \/ JS.message e = INVALID_PROJECT_PATH).
Proof.
  intros H. destruct (validateParameteres_rejects _ _ n H) as (e & Hrun & Hid & Hm).
  cbv zeta. unfold generateCodesignFiles, bind. rewrite Hrun.
  exists e. cbn. repeat split; assumption.
Qed.

(** Open [generateCodesignFiles] on an arbitrary call: the rejected call
    has no events, the accepted one is split along every outcome. *)
Ltac open_generation cd dir n :=
  let Hrun := fresh "Hrun" in
  let e := fresh "e" in
  destruct (validateParameteres_dichotomy cd dir n) as [Hrun|(e & Hrun)];
  [ let d := fresh "d" in
    let Hd := fresh "Hd" in
    destruct (validateParameteres_passes cd dir n) as (d & Hd & _);
    [now rewrite Hrun|]; subst cd;
    rewrite (accepted_call d dir n Hrun); cbv zeta;
    unfold executeGeneration, prepareCodesignRequest; unfold_run;
    cbn [app fst snd];
    repeat (split_run; cbn [app fst snd])
  | rewrite (rejected_call_silent cd dir n e Hrun);
    cbn [events result final fst snd] ].

Ltac pick_event H :=
  cbn [In] in H;
  repeat (destruct H as [H|H]; [try discriminate|]);
  try discriminate; try contradiction.

(** C1 (amended): when the fetched manifest has no build items, nothing
    is downloaded and an error is thrown; its message holds the errors
    text of the manifest, unless that text contains "403 Forbidden", in
    which case it holds the service-unavailable text instead. *)
Theorem empty_manifest_fails_without_download codesignData projectDir n from m :
  let r := generateCodesignFiles svc codesignData projectDir n in
  In (EvS3Object from (Returned m)) (events r) ->
  no_items m = true ->
  Forall (fun ev => is_download ev = false) (events r)
  /\ exists e : JS.Error,
      result r = Thrown e
      /\ JS.stderr e = result_stderr m
      /\ (~ contains (errors_text m) "403 Forbidden" ->
          contains (JS.message e) (errors_text m))
      /\ (contains (errors_text m) "403 Forbidden" ->
          contains (JS.message e) SERVICE_UNAVAILABLE).
Proof.
  cbv zeta.
  open_generation codesignData projectDir n.
  all: intros Hin Hno; pick_event Hin.
  all: match goal with
       | H : EvS3Object _ _ = EvS3Object _ _ |- _ => injection H as <- <-
       end.
  all: try congruence.
  all: split; [repeat constructor|].
  all: eexists; split; [reflexivity|split; [reflexivity|]].
  all: unfold errors_text; cbn [JS.message JS.set_stderr JS.new_Error JS.set_buildId].
  all: match goal with
       | H : (JS.indexOf _ _ >? -1)%Z = true |- _ =>
           split; [intros Hn; destruct Hn; now apply indexOf_contains|
                   intros _; apply contains_infix]
       | H : (JS.indexOf _ _ >? -1)%Z = false |- _ =>
           apply indexOf_absent in H;
           split; [intros _; apply contains_infix|intros Hc; now destruct H]
       end.
Qed.

Lemma forbidden_text_absent (t raw : string) :
  contains raw "403 Forbidden" ->
  (JS.indexOf t "403 Forbidden" >? -1)%Z = false ->
  ~ contains t raw.
Proof.
  intros Hraw Habs Hc. apply indexOf_absent in Habs.
  apply Habs. eapply contains_trans; eassumption.
Qed.

(** C2: when the fetched manifest has no build items and its errors text
    contains "403 Forbidden", the thrown error has the message built
    from the service-unavailable text, which does not show the raw
    text; the raw text is logged at trace level, and no logger call
    below trace level shows it. *)
Theorem forbidden_errors_are_sanitized codesignData projectDir n from m :
  let r := generateCodesignFiles svc codesignData projectDir n in
  In (EvS3Object from (Returned m)) (events r) ->
  no_items m = true ->
  contains (errors_text m) "403 Forbidden" ->
  exists e : JS.Error,
    result r = Thrown e
    /\ JS.message e
       = ("Codesign failed. Reason is: " ++ SERVICE_UNAVAILABLE ++ ".")%string
    /\ ~ contains (JS.message e) (errors_text m)
    /\ In (EvLog Trace [LStr ("Codesign errors: " ++ errors_text m)]) (events r)
    /\ (forall lvl args a,
           In (EvLog lvl args) (events r) -> In a args ->
           mentions a (errors_text m) -> lvl = Trace).
Proof.
  cbv zeta.
  open_generation codesignData projectDir n.
  all: intros Hin Hno Hforbidden; pick_event Hin.
  all: match goal with
       | H : EvS3Object _ _ = EvS3Object _ _ |- _ => injection H as <- <-
       end.
  all: try congruence.
  all: try match goal with
       | H : (JS.indexOf _ _ >? -1)%Z = false |- _ =>
           apply indexOf_absent in H; now destruct H
       end.
  all: eexists; split; [reflexivity|split; [reflexivity|]].
  all: cbn [JS.message JS.set_stderr JS.new_Error JS.set_buildId].
  all: split; [now apply forbidden_text_absent|].
  all: split; [cbn [In]; tauto|].
  all: intros lvl args arg Hlog Harg Hshow; pick_event Hlog.
  all: match goal with
       | H : EvLog _ _ = EvLog _ _ |- _ => injection H as <- <-
       end.
  all: try reflexivity.
  all: pick_event Harg; subst arg; cbn [mentions] in Hshow.
  all: exfalso; revert Hshow; now apply forbidden_text_absent.
Qed.

(** C9: on an accepted call an undefined [clean] counts as [true], and
    the request that goes to the server carries the flag so defaulted;
    a given [false] goes through as it is. *)
Theorem clean_defaults_to_true codesignData projectDir n :
  result (validateParameteres codesignData projectDir n) = Returned tt ->
  exists d,
    codesignData = Some d
    /\ let sent := match clean d with None => true | Some b => b end in
       let r := generateCodesignFiles svc codesignData projectDir n in
       (forall req o,
           In (EvServerGenerate req o) (events r) -> req_clean req = Some sent)
       /\ (forall projectData,
             getProjectData svc projectDir = Returned projectData ->
             exists req o,
               In (EvServerGenerate req o) (events r)
               /\ req_clean req = Some sent).
Proof.
  intros Hv. apply validateParameteres_passes in Hv.
  destruct Hv as (d & -> & _ & _ & _ & Hrun).
  exists d. split; [reflexivity|]. cbv zeta.
  rewrite (accepted_call d projectDir n Hrun). cbv zeta.
  unfold executeGeneration, prepareCodesignRequest. unfold_run.
  cbn [app fst snd].
  repeat (split_run; cbn [app fst snd]).
  all: split;
    [ intros req o Hin; pick_event Hin;
      match goal with
      | H : EvServerGenerate _ _ = EvServerGenerate _ _ |- _ =>
          injection H as <- <-
      end; reflexivity
    | intros pd Hpd;
      first [ congruence
            | do 2 eexists; split; [cbn [In]; eauto 6|reflexivity] ] ].
Qed.

(** C6: the guard of [getServerResults] never fires.  The function emits
    nothing, throws nothing and returns the filtered list, the empty one
    included. *)
Theorem getServerResults_never_fails codesignResult n :
  getServerResults C codesignResult n
  = ([], n,
     Returned (JS.lodash_filter (buildItems codesignResult) (is_codesign_item C)))
  /\ forall e, result (getServerResults C codesignResult n) <> Thrown e.
Proof.
  unfold getServerResults. unfold_run. cbn. split; [reflexivity|discriminate].
Qed.

Lemma is_codesign_item_spec b :
  is_codesign_item C b = true <->
  disposition b = DISPOSITIONS_CERTIFICATE C
  \/ disposition b = DISPOSITIONS_PROVISION C.
Proof.
  unfold is_codesign_item. rewrite orb_true_iff, !String.eqb_eq. reflexivity.
Qed.

(** Filtering splits a list, in order, into the kept and the dropped. *)
Lemma filter_partition {A} (p : A -> bool) (l : list A) :
  sublist (List.filter p l) l
  /\ Forall (fun x => p x = true) (List.filter p l)
  /\ exists dropped,
      Permutation l (List.filter p l ++ dropped)
      /\ Forall (fun x => p x = false) dropped.
Proof.
  induction l as [|x l (Hsub & Hall & dropped & Hperm & Hdrop)].
  - repeat split; [constructor|constructor|].
    exists []. split; [reflexivity|constructor].
  - cbn [List.filter]. destruct (p x) eqn:Hx.
    + repeat split.
      * now constructor.
      * now constructor.
      * exists dropped. split; [|assumption].
        cbn [app]. now constructor.
    + repeat split.
      * now constructor.
      * assumption.
      * exists (x :: dropped). split; [|now constructor].
        rewrite Hperm at 1. apply Permutation_middle.
Qed.

(** C7: [getServerResults] returns the items of the manifest whose
    disposition is CERTIFICATE or PROVISION, each as often as it is
    listed and in the order of the manifest; every other item is left
    out. *)
Theorem getServerResults_selects_codesign_items codesignResult n :
  let items := default [] (buildItems codesignResult) in
  exists selected,
    result (getServerResults C codesignResult n) = Returned selected
    /\ (forall b,
           In b selected <->
           In b items
           /\ (disposition b = DISPOSITIONS_CERTIFICATE C
               \/ disposition b = DISPOSITIONS_PROVISION C))
    /\ sublist selected items
    /\ exists excluded,
        Permutation items (selected ++ excluded)
        /\ Forall (fun b => disposition b <> DISPOSITIONS_CERTIFICATE C
                            /\ disposition b <> DISPOSITIONS_PROVISION C)
                  excluded.
Proof.
  cbv zeta. unfold getServerResults. unfold_run. cbn.
  eexists. split; [reflexivity|].
  destruct (buildItems codesignResult) as [items|]; cbn.
  - destruct (filter_partition (is_codesign_item C) items)
      as (Hsub & _ & excluded & Hperm & Hex).
    split; [|split; [assumption|]].
    + intros b. rewrite List.filter_In, is_codesign_item_spec. reflexivity.
    + exists excluded. split; [assumption|].
      eapply Forall_impl; [exact Hex|]. intros b Hb. cbv beta in Hb.
      split; intros Heq;
        assert (is_codesign_item C b = true)
          by (apply is_codesign_item_spec; auto);
        congruence.
  - split; [intros b; cbn; tauto|].
    split; [constructor|]. exists []. split; [reflexivity|constructor].
Qed.

(** C8: with a project directory and a platform the output directory is
    [path.join] of the project directory, the codesign directory name
    and the lower-cased platform; it is the same for all options that
    agree on these two. *)
Theorem output_directory_is_determined options dir p :
  opt_projectDir options = Some dir ->
  opt_platform options = Some p ->
  getServerOperationOutputDirectory C svc options
  = Returned (path_join svc [dir; CODESIGN_FILES_DIR_NAME C; toLowerCase svc p])
  /\ forall options',
      opt_projectDir options' = Some dir ->
      opt_platform options' = Some p ->
      getServerOperationOutputDirectory C svc options'
      = getServerOperationOutputDirectory C svc options.
Proof.
  intros Hd Hp. unfold getServerOperationOutputDirectory.
  rewrite Hd, Hp. split; [reflexivity|].
  intros options' -> ->. reflexivity.
Qed.

End Facts.

(** How polling ends has no influence on how the generation ends. *)
Lemma wait_outcome_irrelevant svc wait d projectDir id n :
  result (executeGeneration (with_wait svc wait) d projectDir id n)
  = result (executeGeneration svc d projectDir id n).
Proof.
  unfold executeGeneration, prepareCodesignRequest. unfold_run.
  cbn [with_wait getProjectData sanitizeName server_generateCodesignFiles
       waitForServerOperationToFinish getObjectFromS3File
       downloadServerResults getContentOfS3File JSON_stringify app fst snd].
  repeat (split_run; cbn [app fst snd]); congruence.
Qed.

Lemma generation_ignores_wait svc wait codesignData projectDir n :
  result (generateCodesignFiles (with_wait svc wait) codesignData projectDir n)
  = result (generateCodesignFiles svc codesignData projectDir n).
Proof.
  destruct (validateParameteres_dichotomy codesignData projectDir n)
    as [Hrun|(e & Hrun)].
  - destruct (validateParameteres_passes codesignData projectDir n)
      as (d & -> & _); [now rewrite Hrun|].
    rewrite !(accepted_call _ d projectDir n Hrun). cbv zeta.
    pose proof (wait_outcome_irrelevant svc wait
                  (set_clean d (Some match clean d with
                                     | Some b => b
                                     | None => true
                                     end))
                  projectDir (uuid_v4 svc n) (S n)) as Hres.
    cbn [with_wait uuid_v4] in *.
    destruct (executeGeneration (with_wait svc wait) _ _ _ _) as [[t1 s1] o1].
    destruct (executeGeneration svc _ _ _ _) as [[t2 s2] o2].
    cbn [result snd] in Hres. subst o2. now destruct o1.
  - now rewrite !(rejected_call_silent _ codesignData projectDir n e Hrun).
Qed.

(** C3 (amended): when polling fails, the error is traced and dropped and
    the manifest is fetched next, once in the whole run; the error is not
    raised afterwards: the call ends as it would have ended after a
    successful wait. *)
Theorem polling_failure_is_traced_and_dropped
    svc codesignData projectDir n id resp ex :
  let r := generateCodesignFiles svc codesignData projectDir n in
  In (EvWait id resp (Thrown ex)) (events r) ->
  (exists before o after,
      events r
      = before
        ++ [EvWait id resp (Thrown ex);
            EvLog Trace [LStr "Codesign generation failed with err: "; LErr ex];
            EvS3Object (resultUrl resp) o]
        ++ after
      /\ Forall (fun ev => is_fetch ev = false) before
      /\ Forall (fun ev => is_fetch ev = false) after)
  /\ result r
     = result (generateCodesignFiles
                 (with_wait svc (fun _ _ => Returned tt))
                 codesignData projectDir n).
Proof.
  cbv zeta. intros Hin.
  split; [|symmetry; apply generation_ignores_wait].
  revert Hin.
  destruct (validateParameteres_dichotomy codesignData projectDir n)
    as [Hrun|(e & Hrun)].
  - destruct (validateParameteres_passes codesignData projectDir n)
      as (d & -> & _); [now rewrite Hrun|].
    rewrite (accepted_call svc d projectDir n Hrun). cbv zeta.
    unfold executeGeneration, prepareCodesignRequest. unfold_run.
    cbn [app fst snd].
    repeat (split_run; cbn [app fst snd]).
    all: intros Hin; cbn [In] in Hin;
      repeat (destruct Hin as [Hin|Hin]; [try discriminate|]);
      try discriminate; try contradiction.
    all: injection Hin as <- <- <-.
    all: match goal with
         | |- exists before o after,
               ?a :: ?b :: ?c :: ?d :: ?e :: _ :: _ :: EvS3Object _ ?fetched :: ?rest
               = _ /\ _ =>
             exists [a; b; c; d; e], fetched, rest
         end.
    all: split; [reflexivity|split; repeat constructor].
  - rewrite (rejected_call_silent svc codesignData projectDir n e Hrun).
    intros [].
Qed.

(** *** The statements at work in the sample world *)

Ltac find_event := vm_compute; repeat (first [left; reflexivity | right]).

Example indexOf_forbidden :
  JS.indexOf "Request failed: 403 Forbidden" "403 Forbidden" = 16%Z
  /\ JS.indexOf "Invalid Apple Id" "403 Forbidden" = (-1)%Z.
Proof. split; reflexivity. Qed.

Example getServerResults_of_signed_manifest :
  result (getServerResults sample_constants signed_manifest 0)
  = Returned [certificate_item; provision_item].
Proof. reflexivity. Qed.

Example events_of_failed_generation :
  events (generateCodesignFiles (sample_services (Returned tt) failed_manifest)
            (Some sample_codesignData) "/work/app" 0)
  = [EvUuid "build-0";
     EvLog Info [LStr "Starting generation of iOS certificate and provision files."];
     EvGetProjectData "/work/app" (Returned sample_project);
     EvServerGenerate
       {| req_buildId := "build-0"; req_appId := "org.nativescript.app";
          req_appName := "app"; req_clean := Some true;
          req_username := Some "dev@example.com"; req_password := Some "secret";
          req_sharedCloud := None; req_devices := None |}
       (Returned sample_response);
     EvLog Trace [LStr "Codesign response: https://results.example/codesign.json"];
     EvWait "build-0" sample_response (Returned tt);
     EvS3Object "https://results.example/codesign.json" (Returned failed_manifest);
     EvLog Trace [LStr "Codesign result:"];
     EvLog Trace [LResult failed_manifest]].
Proof. vm_compute. reflexivity. Qed.

Lemma validation_fails_before_any_call_witness :
  let svc := sample_services (Returned tt) signed_manifest in
  rejected None "/work/app"
  /\ exists e : JS.Error,
      result (generateCodesignFiles svc None "/work/app" 7) = Thrown e
      /\ events (generateCodesignFiles svc None "/work/app" 7) = []
      /\ JS.buildId e = None.
Proof.
  cbv zeta. split; [left; reflexivity|].
  destruct (validation_fails_before_any_call
              (sample_services (Returned tt) signed_manifest) None "/work/app" 7)
    as (e & Hres & Hev & _ & _ & Hid & _); [left; reflexivity|].
  exists e. repeat split; assumption.
Defined.

Lemma buildId_generated_once_witness :
  let svc := sample_services (Returned tt) failed_manifest in
  let r := generateCodesignFiles svc (Some sample_codesignData) "/work/app" 3 in
  result (validateParameteres (Some sample_codesignData) "/work/app" 3)
  = Returned tt
  /\ final r = 4
  /\ exists rest, events r = EvUuid "build-3" :: rest.
Proof.
  cbv zeta. split; [reflexivity|].
  destruct (buildId_generated_once
              (sample_services (Returned tt) failed_manifest)
              (Some sample_codesignData) "/work/app" 3)
    as ((rest & Hev & _) & Hfinal & _); [reflexivity|].
  split; [exact Hfinal|]. exists rest. exact Hev.
Defined.

(** C5 fails on the code when a collaborator rejects with something that is
    no error object.  Here the server call rejects with the string
    "failed" on an accepted call: the identifier has been drawn and sent,
    the assignment of the catch block throws, and the error that leaves the
    call is the [TypeError] of that assignment, without [buildId]. *)
Lemma string_rejection_leaves_without_buildId :
  let r := generateCodesignFiles CodesignWorlds.string_rejecting_services
             (Some sample_codesignData) "/work/app" 0 in
  result (validateParameteres (Some sample_codesignData) "/work/app" 0)
  = Returned tt
  /\ events r
     = [EvUuid "build-0";
        EvLog Info [LStr "Starting generation of iOS certificate and provision files."];
        EvGetProjectData "/work/app" (Returned sample_project);
        EvServerGenerate (CodesignWorlds.sample_request "build-0")
          (Thrown (JS.Str "failed"))]
  /\ exists e : JS.Error,
      result r = Thrown (JS.Obj e)
      /\ JS.message e = "Cannot create property 'buildId' on string 'failed'"
      /\ JS.buildId e = None.
Proof.
  cbv zeta. split; [reflexivity|]. split; [vm_compute; reflexivity|].
  eexists. split; [vm_compute; reflexivity|]. split; reflexivity.
Qed.

Lemma empty_manifest_fails_without_download_witness :
  let svc := sample_services (Returned tt) failed_manifest in
  let r := generateCodesignFiles svc (Some sample_codesignData) "/work/app" 0 in
  In (EvS3Object (resultUrl sample_response) (Returned failed_manifest)) (events r)
  /\ no_items failed_manifest = true
  /\ Forall (fun ev => is_download ev = false) (events r)
  /\ exists e : JS.Error, result r = Thrown e /\ contains (JS.message e) "Invalid Apple Id".
Proof.
  cbv zeta. split; [find_event|]. split; [reflexivity|].
  destruct (empty_manifest_fails_without_download
              (sample_services (Returned tt) failed_manifest)
              (Some sample_codesignData) "/work/app" 0
              (resultUrl sample_response) failed_manifest)
    as (Hnone & e & Hres & _ & Hraw & _); [find_event|reflexivity|].
  split; [exact Hnone|].
  exists e. split; [exact Hres|].
  apply Hraw. apply indexOf_absent. reflexivity.
Defined.

(** C1, as it is written, fails on a manifest whose errors text holds
    "403 Forbidden": the message of the error does not show that text. *)
Lemma forbidden_errors_text_is_not_reported :
  let svc := sample_services (Returned tt) forbidden_manifest in
  let r := generateCodesignFiles svc (Some sample_codesignData) "/work/app" 0 in
  In (EvS3Object (resultUrl sample_response) (Returned forbidden_manifest))
     (events r)
  /\ no_items forbidden_manifest = true
  /\ errors forbidden_manifest = Some "Request failed: 403 Forbidden"
  /\ exists e : JS.Error,
      result r = Thrown e
      /\ ~ contains (JS.message e) "Request failed: 403 Forbidden".
Proof.
  cbv zeta. split; [find_event|]. split; [reflexivity|]. split; [reflexivity|].
  eexists. split; [vm_compute; reflexivity|].
  apply indexOf_absent. vm_compute. reflexivity.
Qed.

Lemma forbidden_errors_are_sanitized_witness :
  let svc := sample_services (Returned tt) forbidden_manifest in
  let r := generateCodesignFiles svc (Some sample_codesignData) "/work/app" 0 in
  In (EvS3Object (resultUrl sample_response) (Returned forbidden_manifest))
     (events r)
  /\ no_items forbidden_manifest = true
  /\ contains (errors_text forbidden_manifest) "403 Forbidden"
  /\ exists e : JS.Error,
      result r = Thrown e
      /\ JS.message e
         = "Codesign failed. Reason is: The Code Signing Assistance service is temporary unavailable. Please try again later..".
Proof.
  cbv zeta. split; [find_event|]. split; [reflexivity|].
  assert (Hforbidden : contains (errors_text forbidden_manifest) "403 Forbidden")
    by (apply indexOf_contains; reflexivity).
  split; [exact Hforbidden|].
  destruct (forbidden_errors_are_sanitized
              (sample_services (Returned tt) forbidden_manifest)
              (Some sample_codesignData) "/work/app" 0
              (resultUrl sample_response) forbidden_manifest)
    as (e & Hres & Hmsg & _); [find_event|reflexivity|exact Hforbidden|].
  exists e. split; [exact Hres|exact Hmsg].
Defined.

(** C3, as it is written, fails when polling times out and the manifest
    lists the signed files all the same: the call returns its result and
    the timeout is raised nowhere. *)
Lemma polling_timeout_is_not_raised :
  let svc := sample_services (Thrown polling_timeout) signed_manifest in
  let r := generateCodesignFiles svc (Some sample_codesignData) "/work/app" 0 in
  In (EvWait "build-0" sample_response (Thrown polling_timeout)) (events r)
  /\ In (EvS3Object (resultUrl sample_response) (Returned signed_manifest))
        (events r)
  /\ exists data,
      result r = Returned data
      /\ out_outputFilesPaths data = [url certificate_item; url provision_item].
Proof.
  cbv zeta. split; [find_event|]. split; [find_event|].
  eexists. split; vm_compute; reflexivity.
Qed.

Lemma polling_failure_is_traced_and_dropped_witness :
  let svc := sample_services (Thrown polling_timeout) failed_manifest in
  let r := generateCodesignFiles svc (Some sample_codesignData) "/work/app" 0 in
  In (EvWait "build-0" sample_response (Thrown polling_timeout)) (events r)
  /\ result r
     = result (generateCodesignFiles
                 (with_wait svc (fun _ _ => Returned tt))
                 (Some sample_codesignData) "/work/app" 0).
Proof.
  cbv zeta. split; [find_event|].
  apply (polling_failure_is_traced_and_dropped
           (sample_services (Thrown polling_timeout) failed_manifest)
           (Some sample_codesignData) "/work/app" 0
           "build-0" sample_response polling_timeout).
  find_event.
Defined.

Lemma clean_defaults_to_true_witness :
  let svc := sample_services (Returned tt) signed_manifest in
  let r := generateCodesignFiles svc (Some sample_codesignData) "/work/app" 0 in
  result (validateParameteres (Some sample_codesignData) "/work/app" 0)
  = Returned tt
  /\ clean sample_codesignData = None
  /\ forall req o,
      In (EvServerGenerate req o) (events r) -> req_clean req = Some true.
Proof.
  cbv zeta. split; [reflexivity|]. split; [reflexivity|].
  destruct (clean_defaults_to_true
              (sample_services (Returned tt) signed_manifest)
              (Some sample_codesignData) "/work/app" 0)
    as (d & [= <-] & Hsent & _); [reflexivity|].
  exact Hsent.
Defined.

Lemma output_directory_is_determined_witness :
  let svc := sample_services (Returned tt) signed_manifest in
  let options := {| opt_projectDir := Some "/work/app";
                    opt_platform := Some "iOS";
                    opt_emulator := false |} in
  opt_projectDir options = Some "/work/app"
  /\ opt_platform options = Some "iOS"
  /\ getServerOperationOutputDirectory sample_constants svc options
     = Returned "/work/app/codesign_files/ios".
Proof.
  cbv zeta. split; [reflexivity|]. split; [reflexivity|].
  destruct (output_directory_is_determined sample_constants
              (sample_services (Returned tt) signed_manifest)
              {| opt_projectDir := Some "/work/app";
                 opt_platform := Some "iOS";
                 opt_emulator := false |}
              "/work/app" "iOS" eq_refl eq_refl) as [Hdir _].
  exact Hdir.
Defined.

End CodesignTheory.

(** ** The build command helper *)

Module BuildTheory.
Import BuildCommandHelper BuildSpec.

Ltac unfold_run :=
  unfold logger_info, failWithoutHelp,
    bind, try_catch, call, emit, ret, throw, events, final, result in *.

Ltac split_run :=
  match goal with
  | |- context [match ?o with Returned _ => _ | Thrown _ => _ end] =>
      destruct o eqn:?
  | |- context [match ?o with Some _ => _ | None => _ end] =>
      destruct o eqn:?
  | |- context [if ?b then _ else _] => destruct b eqn:?
  end.

(** The configuration that [getCloudBuildData] derives follows the
    [release] option. *)
Lemma getCloudBuildData_configuration C svc options projectData platformArg s t s' d :
  getCloudBuildData C svc options projectData platformArg s = (t, s', Returned d) ->
  buildConfiguration d
  = if JS.truthy_flag (release options)
    then CLOUD_BUILD_CONFIGURATIONS_RELEASE C
    else CLOUD_BUILD_CONFIGURATIONS_DEBUG C.
Proof.
  unfold getCloudBuildData. unfold_run.
  destruct (validatePlatformName svc platformArg); [|discriminate].
  cbn [app fst snd].
  destruct (readJson svc _); [|discriminate].
  destruct (isAndroidPlatform svc a); [|destruct (isiOSPlatform svc a)];
    intros [= <- <- <-]; reflexivity.
Qed.

(** Without [local], publishing goes through the data of
    [getCloudBuildData] with the configuration replaced. *)
Lemma publishing_in_the_cloud C svc options projectData platformArg s platform :
  JS.truthy_flag (local options) = false ->
  validatePlatformName svc platformArg = Returned platform ->
  buildForPublishingPlatform C svc options projectData platformArg s
  = match getCloudBuildData C svc options projectData platform s with
    | (t, s', Returned d) =>
        let sent := cloudBuild svc (projectSettings d) (bd_platform d)
                      (CLOUD_BUILD_CONFIGURATIONS_RELEASE C) (accountId options)
                      (androidBuildData d) (iOSBuildData d) in
        (EvValidatePlatformName platformArg (Returned platform)
           :: t
           ++ [EvCloudBuild (projectSettings d) (bd_platform d)
                 (CLOUD_BUILD_CONFIGURATIONS_RELEASE C) (accountId options)
                 (androidBuildData d) (iOSBuildData d) sent],
         s',
         match sent with
         | Returned built =>
             match qrData built with
             | Some qr => Returned (originalUrl qr)
             | None => Thrown (JS.TypeError "originalUrl")
             end
         | Thrown e => Thrown e
         end)
    | (t, s', Thrown e) =>
        (EvValidatePlatformName platformArg (Returned platform) :: t, s', Thrown e)
    end.
Proof.
  intros Hlocal Hvalid. unfold buildForPublishingPlatform.
  unfold bind at 1, call at 1. rewrite Hvalid, Hlocal.
  unfold bind at 1.
  destruct (getCloudBuildData C svc options projectData platform s)
    as [[t s'] [d|e]]; [|reflexivity].
  unfold bind, call, ret, throw.
  cbn [set_buildConfiguration projectSettings bd_platform buildConfiguration
       androidBuildData iOSBuildData app].
  destruct (cloudBuild svc _ _ _ _ _ _) as [built|e]; [|reflexivity].
  destruct (qrData built); cbn [app]; rewrite ?app_nil_r; reflexivity.
Qed.

Lemma getCloudBuildData_no_build C svc options projectData platformArg s :
  Forall (fun ev => match ev with
                    | EvCloudBuild _ _ _ _ _ _ _ | EvLocalBuild _ _ _ _ => False
                    | _ => True
                    end)
         (events (getCloudBuildData C svc options projectData platformArg s)).
Proof.
  unfold getCloudBuildData. unfold_run. cbn [app fst snd].
  repeat (split_run; cbn [app fst snd]); repeat constructor.
Qed.

(** C10: when [local] is not set, every build that
    [buildForPublishingPlatform] submits is a cloud build with the RELEASE
    configuration, and whenever [getCloudBuildData] yields build data,
    whose configuration follows the [release] option, that data is
    submitted with RELEASE in place of it. *)
Theorem publishing_build_is_release C svc options projectData platformArg s :
  JS.truthy_flag (local options) = false ->
  let r := buildForPublishingPlatform C svc options projectData platformArg s in
  (forall settings p configuration account android ios o,
      In (EvCloudBuild settings p configuration account android ios o) (events r) ->
      configuration = CLOUD_BUILD_CONFIGURATIONS_RELEASE C)
  /\ (forall p opts template o, ~ In (EvLocalBuild p opts template o) (events r))
  /\ (forall platform t s' d,
        validatePlatformName svc platformArg = Returned platform ->
        getCloudBuildData C svc options projectData platform s
        = (t, s', Returned d) ->
        buildConfiguration d
        = (if JS.truthy_flag (release options)
           then CLOUD_BUILD_CONFIGURATIONS_RELEASE C
           else CLOUD_BUILD_CONFIGURATIONS_DEBUG C)
        /\ exists o,
            In (EvCloudBuild (projectSettings d) (bd_platform d)
                  (CLOUD_BUILD_CONFIGURATIONS_RELEASE C) (accountId options)
                  (androidBuildData d) (iOSBuildData d) o)
               (events r)).
Proof.
  intros Hlocal. cbv zeta.
  destruct (validatePlatformName svc platformArg) as [platform|e] eqn:Hvalid.
  - rewrite (publishing_in_the_cloud C svc options projectData platformArg s
               platform Hlocal Hvalid).
    pose proof (getCloudBuildData_no_build C svc options projectData platform s)
      as Hquiet.
    destruct (getCloudBuildData C svc options projectData platform s)
      as [[t s'] [d|e]] eqn:Hdata; cbn [events fst] in *.
    + rewrite List.Forall_forall in Hquiet. split; [|split].
      * intros settings p configuration account android ios o [Hin|Hin];
          [discriminate|].
        apply in_app_or in Hin. destruct Hin as [Hin|[Hin|[]]].
        -- now apply Hquiet in Hin.
        -- now injection Hin.
      * intros p opts template o [Hin|Hin]; [discriminate|].
        apply in_app_or in Hin. destruct Hin as [Hin|[Hin|[]]].
        -- now apply Hquiet in Hin.
        -- discriminate.
      * intros platform' t' s'' d' [= <-] Hd'.
        rewrite Hdata in Hd'. injection Hd' as <- <- <-. split.
        -- eapply getCloudBuildData_configuration; eassumption.
        -- eexists. right. apply in_or_app. right. left. reflexivity.
    + rewrite List.Forall_forall in Hquiet. split; [|split].
      * intros settings p configuration account android ios o [Hin|Hin];
          [discriminate|]. now apply Hquiet in Hin.
      * intros p opts template o [Hin|Hin]; [discriminate|].
        now apply Hquiet in Hin.
      * intros platform' t' s'' d' [= <-] Hd'.
        rewrite Hdata in Hd'. discriminate.
  - unfold buildForPublishingPlatform. unfold bind at 1, call at 1.
    rewrite Hvalid. cbn [events fst]. split; [|split].
    + intros settings p configuration account android ios o [Hin|[]].
      discriminate.
    + intros p opts template o [Hin|[]]. discriminate.
    + intros platform t s' d Hp. discriminate.
Qed.

Lemma publishing_build_is_release_witness :
  let r := buildForPublishingPlatform sample_build_constants sample_build_services
             sample_build_options sample_build_project "Android" tt in
  JS.truthy_flag (local sample_build_options) = false
  /\ release sample_build_options = Some false
  /\ (exists t d,
        getCloudBuildData sample_build_constants sample_build_services sample_build_options
          sample_build_project "Android" tt = (t, tt, Returned d)
        /\ buildConfiguration d = "Debug")
  /\ forall settings p configuration account android ios o,
      In (EvCloudBuild settings p configuration account android ios o) (events r) ->
      configuration = "Release".
Proof.
  cbv zeta. split; [reflexivity|]. split; [reflexivity|].
  split; [do 2 eexists; split; vm_compute; reflexivity|].
  destruct (publishing_build_is_release sample_build_constants sample_build_services
              sample_build_options sample_build_project "Android" tt eq_refl)
    as (Hrelease & _).
  exact Hrelease.
Defined.

End BuildTheory.

(** ** The clean workspace command *)

Module CleanWorkspaceTheory.
Import CleanCloudWorkspace PromptSpec.

Ltac unfold_run :=
  unfold promptForAppId, promptForProjectName, getParameterValue,
    failWithoutHelp, bind, try_catch, call, emit, ret, throw,
    events, final, result in *.

Ltac split_run :=
  match goal with
  | |- context [match ?o with Returned _ => _ | Thrown _ => _ end] =>
      destruct o eqn:?
  | |- context [if ?b then _ else _] => destruct b eqn:?
  end.

Ltac run_all := unfold_run; cbn [app fst snd negb]; repeat (split_run; cbn [app fst snd negb]).

Lemma ltb_length_nonempty (s : string) :
  (0 <? String.length s)%nat = true <-> s <> EmptyString.
Proof.
  destruct s; cbn; split; intros H; congruence.
Qed.

Lemma ltb_length_empty (s : string) :
  (0 <? String.length s)%nat = false <-> s = EmptyString.
Proof.
  destruct s; cbn; split; intros H; congruence.
Qed.

(** With two parameters that are not blank, [execute] asks nothing and does
    not look at the project: it cleans up with the two parameters, ignores
    every further parameter, and ends as [cleanupProject] ends. *)
Theorem execute_with_both_parameters svc appId name rest :
  trim svc appId <> EmptyString ->
  trim svc name <> EmptyString ->
  execute svc (appId :: name :: rest) tt
  = ([EvCleanupProject appId name (cleanupProject svc appId name)], tt,
     after_cleanup (cleanupProject svc appId name)).
Proof.
  intros Ha Hn. apply ltb_length_nonempty in Ha, Hn.
  unfold execute. unfold_run. rewrite Ha, Hn. cbn [app fst snd].
  destruct (cleanupProject svc appId name) as [[]|e]; reflexivity.
Qed.

Lemma execute_with_both_parameters_witness :
  execute (sample_services false false) ["org.app"; "app"; "more"] tt
  = ([EvCleanupProject "org.app" "app" (Returned tt)], tt, Returned tt).
Proof.
  apply (execute_with_both_parameters (sample_services false false)
           "org.app" "app" ["more"]); discriminate.
Defined.

(** Inside a project and without parameters, [execute] takes the app id and
    the project name from the project data and asks nothing, on a terminal
    or not. *)
Theorem execute_inside_project svc data :
  initializeProjectData svc = Returned data ->
  execute svc [] tt
  = ([EvInitializeProjectData (Returned data);
      EvCleanupProject (projectId data) (projectName data)
        (cleanupProject svc (projectId data) (projectName data))],
     tt,
     after_cleanup (cleanupProject svc (projectId data) (projectName data))).
Proof.
  intros Hinit. unfold execute. unfold_run. rewrite Hinit. cbn [app fst snd].
  destruct (cleanupProject svc _ _) as [[]|e]; reflexivity.
Qed.

Lemma execute_inside_project_witness :
  events (execute (sample_services false true) [] tt)
  = [EvInitializeProjectData
       (Returned {| projectId := "org.nativescript.app"; projectName := "app" |});
     EvCleanupProject "org.nativescript.app" "app" (Returned tt)].
Proof.
  rewrite (execute_inside_project (sample_services false true)
             {| projectId := "org.nativescript.app"; projectName := "app" |}
             eq_refl).
  reflexivity.
Defined.

(** Without a terminal, a run that would have to ask (no parameters outside
    of a project, one parameter only, or a blank one among the first two)
    fails with the requirements message; it asks nothing and cleans
    nothing. *)
Theorem execute_needs_terminal svc args :
  isInteractive svc = false ->
  (args = [] /\ exists e, initializeProjectData svc = Thrown e)
  \/ (exists appId, args = [appId])
  \/ (exists appId name rest,
        args = appId :: name :: rest
        /\ (trim svc appId = EmptyString \/ trim svc name = EmptyString)) ->
  result (execute svc args tt)
  = Thrown (JS.new_Error COMMAND_REQUIREMENTS_ERROR_MESSAGE)
  /\ Forall (fun ev => is_cleanup ev = false /\ is_prompt ev = false)
            (events (execute svc args tt)).
Proof.
  intros Hterm [(-> & e & Hinit)|[(appId & ->)|(appId & name & rest & -> & Hblank)]];
    unfold execute; unfold_run; rewrite ?Hterm, ?Hinit; cbn [app fst snd negb].
  - split; [reflexivity|repeat constructor].
  - destruct (0 <? String.length (trim svc appId))%nat; cbn [app fst snd];
      split; try reflexivity; repeat constructor.
  - destruct (0 <? String.length (trim svc appId))%nat eqn:Ha; cbn [app fst snd];
      [|split; [reflexivity|repeat constructor]].
    destruct (0 <? String.length (trim svc name))%nat eqn:Hn; cbn [app fst snd];
      [|split; [reflexivity|repeat constructor]].
    apply ltb_length_nonempty in Ha, Hn. tauto.
Qed.

Lemma execute_needs_terminal_witness :
  result (execute (sample_services false true) ["org.app"] tt)
  = Thrown (JS.new_Error COMMAND_REQUIREMENTS_ERROR_MESSAGE).
Proof.
  apply (execute_needs_terminal (sample_services false true) ["org.app"]);
    [reflexivity|right; left; eexists; reflexivity].
Defined.

Ltac pick_event H :=
  cbn [In] in H;
  repeat (destruct H as [H|H]; [try discriminate|]);
  try discriminate; try contradiction.

Ltac open_execute args :=
  let a0 := fresh "arg0" in
  let a1 := fresh "arg1" in
  let rest := fresh "rest" in
  destruct args as [|a0 [|a1 rest]]; unfold execute; run_all.

(** [cleanupProject] is the last step of a run of [execute] and is called
    at most once; how it ends is how the run ends. *)
Theorem cleanup_ends_the_run svc args appId name o :
  In (EvCleanupProject appId name o) (events (execute svc args tt)) ->
  exists before,
    events (execute svc args tt) = before ++ [EvCleanupProject appId name o]
    /\ Forall (fun ev => is_cleanup ev = false) before
    /\ result (execute svc args tt) = after_cleanup o.
Proof.
  open_execute args.
  all: intros Hin; pick_event Hin.
  all: injection Hin as <- <- <-.
  all: match goal with
       | |- exists before, ?l = _ /\ _ => exists (removelast l)
       end; cbn [removelast].
  all: split; [reflexivity|split; [repeat constructor|reflexivity]].
Qed.

Lemma cleanup_ends_the_run_witness :
  exists before,
    events (execute (sample_services true false) [" "; "app"] tt)
    = before ++ [EvCleanupProject "answer to App Id:" "app" (Returned tt)]
    /\ Forall (fun ev => is_cleanup ev = false) before.
Proof.
  destruct (cleanup_ends_the_run (sample_services true false) [" "; "app"]
              "answer to App Id:" "app" (Returned tt))
    as (before & Hev & Hnone & _);
    [vm_compute; right; left; reflexivity|].
  exists before. split; assumption.
Defined.

(** A run of [execute] that returns has cleaned up: it never returns on
    any other path. *)
Theorem execute_returns_only_after_cleanup svc args :
  result (execute svc args tt) = Returned tt ->
  exists appId name,
    In (EvCleanupProject appId name (Returned tt)) (events (execute svc args tt)).
Proof.
  open_execute args.
  all: intros Hres; try discriminate.
  all: match goal with
       | u : unit |- _ => destruct u
       end.
  all: do 2 eexists; cbn [In]; eauto 6.
Qed.

Lemma execute_returns_only_after_cleanup_witness :
  exists appId name,
    In (EvCleanupProject appId name (Returned tt))
       (events (execute (sample_services true false) [] tt)).
Proof.
  apply (execute_returns_only_after_cleanup (sample_services true false) []).
  reflexivity.
Defined.

(** The project data are consulted only when no parameter is given: with
    parameters, [initializeProjectData] is never called, inside a project
    or not. *)
Theorem parameters_bypass_project_data svc args :
  args <> [] ->
  Forall (fun ev => is_initialize ev = false) (events (execute svc args tt)).
Proof.
  intros Hargs. revert Hargs.
  open_execute args.
  all: intros Hargs; try congruence; repeat constructor.
Qed.

Lemma parameters_bypass_project_data_witness :
  Forall (fun ev => is_initialize ev = false)
         (events (execute (sample_services true true) ["org.app"] tt)).
Proof.
  apply (parameters_bypass_project_data (sample_services true true) ["org.app"]).
  discriminate.
Defined.

(** [execute] asks at most two questions, for the app id first and for the
    project name second, each at most once and never allowing the empty
    answer. *)
Theorem questions_in_order svc args :
  sublist (omap asked (events (execute svc args tt)))
          ["App Id:"; "Project name:"]
  /\ forall prompt allowEmpty o,
      In (EvGetString prompt allowEmpty o) (events (execute svc args tt)) ->
      allowEmpty = false.
Proof.
  open_execute args.
  all: split;
    [ cbn;
      solve [repeat first [apply sublist_nil | apply sublist_skip
                          | apply sublist_cons]]
    | intros prompt allowEmpty o Hin; pick_event Hin;
      injection Hin as <- <- <-; reflexivity ].
Qed.

(** What [cleanupProject] is given.  Without parameters and inside a
    project it is the project data, and nothing is asked.  Otherwise each of
    the two identifiers is settled on its own: a parameter that is not
    blank is passed on and its question is not asked; when the parameter is
    blank or missing, the question is asked and its answer is passed on. *)
Theorem cleanup_identifiers_provenance svc args appId name o :
  In (EvCleanupProject appId name o) (events (execute svc args tt)) ->
  (args = []
   /\ (exists data,
         initializeProjectData svc = Returned data
         /\ appId = projectId data /\ name = projectName data)
   /\ Forall (fun ev => is_prompt ev = false) (events (execute svc args tt)))
  \/ ((args = [] -> exists e, initializeProjectData svc = Thrown e)
      /\ ((nth_error args 0 = Some appId
           /\ trim svc appId <> EmptyString
           /\ ~ In "App Id:" (omap asked (events (execute svc args tt))))
          \/ ((forall given,
                  nth_error args 0 = Some given -> trim svc given = EmptyString)
              /\ In (EvGetString "App Id:" false (Returned appId))
                    (events (execute svc args tt))))
      /\ ((nth_error args 1 = Some name
           /\ trim svc name <> EmptyString
           /\ ~ In "Project name:" (omap asked (events (execute svc args tt))))
          \/ ((forall given,
                  nth_error args 1 = Some given -> trim svc given = EmptyString)
              /\ In (EvGetString "Project name:" false (Returned name))
                    (events (execute svc args tt))))).
Proof.
  open_execute args.
  all: intros Hin; pick_event Hin.
  all: injection Hin as <- <- <-.
  all: first
    [ left; split; [reflexivity|];
      split; [eexists; split; [reflexivity|split; reflexivity]
             |repeat constructor]
    | right; split; [intros Hnil; first [discriminate Hnil | eexists; reflexivity]|];
      split;
      first
        [ left; split; [reflexivity|];
          split;
          [ match goal with
            | H : (0 <? String.length ?s)%nat = true |- ?s <> EmptyString =>
                now apply ltb_length_nonempty
            end
          | cbn; intuition discriminate ]
        | right; split;
          [ intros given Hgiven; cbn [nth_error] in Hgiven;
            first [ discriminate Hgiven
                  | injection Hgiven as <-; now apply ltb_length_empty ]
          | cbn [In]; tauto ] ] ].
Qed.

Lemma cleanup_identifiers_provenance_witness :
  let r := execute (sample_services true false) [" "; "app"] tt in
  In (EvGetString "App Id:" false (Returned "answer to App Id:")) (events r)
  /\ ~ In "Project name:" (omap asked (events r)).
Proof.
  cbv zeta.
  destruct (cleanup_identifiers_provenance (sample_services true false)
              [" "; "app"] "answer to App Id:" "app" (Returned tt))
    as [(Hnil & _)|(_ & [(Harg & _)|(_ & Hasked)] & [(_ & _ & Hquiet)|(Hblank & _)])].
  - vm_compute. right. left. reflexivity.
  - discriminate Hnil.
  - discriminate Harg.
  - discriminate Harg.
  - split; [exact Hasked|exact Hquiet].
  - discriminate (Hblank "app" eq_refl).
Defined.

(** [canExecute] refuses missing parameters and more than two parameters
    before the EULA is looked at. *)
Theorem canExecute_refuses_without_eula svc args :
  args = None \/ (exists given, args = Some given /\ 2 < length given) ->
  canExecute svc args tt = ([], tt, Returned false).
Proof.
  intros [->|(given & -> & Hlen)]; unfold canExecute; [reflexivity|].
  apply Nat.ltb_lt in Hlen. now rewrite Hlen.
Qed.

Lemma canExecute_refuses_without_eula_witness :
  canExecute (sample_services true true) (Some ["a"; "b"; "c"]) tt
  = ([], tt, Returned false).
Proof.
  apply (canExecute_refuses_without_eula (sample_services true true)
           (Some ["a"; "b"; "c"])).
  right. eexists. split; [reflexivity|cbn; lia].
Defined.

(** With at most two parameters [canExecute] makes sure of the EULA, once:
    it is true when the EULA is accepted, and the error of the EULA check
    is its error. *)
Theorem canExecute_follows_eula svc given :
  length given <= 2 ->
  canExecute svc (Some given) tt
  = ([EvEnsureEulaIsAccepted (ensureEulaIsAccepted svc)], tt,
     match ensureEulaIsAccepted svc with
     | Returned _ => Returned true
     | Thrown e => Thrown e
     end).
Proof.
  intros Hlen. unfold canExecute.
  assert (Hge : (2 <? List.length given)%nat = false) by (apply Nat.ltb_ge; lia).
  rewrite Hge. unfold_run.
  destruct (ensureEulaIsAccepted svc); reflexivity.
Qed.

Lemma canExecute_follows_eula_witness :
  result (canExecute (sample_services true true) (Some ["org.app"; "app"]) tt)
  = Returned true.
Proof.
  rewrite (canExecute_follows_eula (sample_services true true) ["org.app"; "app"]).
  - reflexivity.
  - cbn. lia.
Defined.

End CleanWorkspaceTheory.

(** ** BuildCommandHelper.getAppleCredentials *)

Module CredentialsTheory.
Import AppleCredentials PromptSpec.

Ltac unfold_run :=
  unfold bind, try_catch, call, emit, ret, throw, events, final, result in *.

Ltac split_run :=
  match goal with
  | |- context [match ?o with Returned _ => _ | Thrown _ => _ end] =>
      destruct o eqn:?
  | |- context [if ?b then _ else _] => destruct b eqn:?
  end.

Ltac open_credentials args :=
  let a0 := fresh "arg0" in
  let a1 := fresh "arg1" in
  let rest := fresh "rest" in
  destruct args as [|a0 [|a1 rest]];
  unfold getAppleCredentials, JS.truthy_string; unfold_run;
  cbn [nth_error app fst snd negb];
  repeat (split_run; cbn [app fst snd negb]).

Ltac pick_event H :=
  cbn [In] in H;
  repeat (destruct H as [H|H]; [try discriminate|]);
  try discriminate; try contradiction.

(** When both the Apple ID and the password are given and not empty, they
    are returned as given and nothing is asked; further arguments are
    ignored. *)
Theorem given_credentials_are_not_asked prompter user pass rest :
  user <> EmptyString ->
  pass <> EmptyString ->
  getAppleCredentials prompter (user :: pass :: rest) tt
  = ([], tt, Returned {| username := user; password := pass |}).
Proof.
  intros Hu Hp. apply String.eqb_neq in Hu, Hp.
  unfold getAppleCredentials, JS.truthy_string. unfold_run.
  cbn [nth_error]. now rewrite Hu, Hp.
Qed.

Lemma given_credentials_are_not_asked_witness :
  getAppleCredentials sample_prompter ["me@example.com"; "pw"; "extra"] tt
  = ([], tt, Returned {| username := "me@example.com"; password := "pw" |}).
Proof.
  apply (given_credentials_are_not_asked sample_prompter
           "me@example.com" "pw" ["extra"]); discriminate.
Defined.

(** A missing or empty Apple ID is asked for first; when that question
    fails, the password is not asked for and the failure is the outcome. *)
Theorem missing_username_is_asked_first prompter args :
  JS.truthy_string (nth_error args 0) = false ->
  exists later,
    events (getAppleCredentials prompter args tt)
    = EvGetString "Apple ID" false (getString prompter "Apple ID" false) :: later
    /\ forall e,
        getString prompter "Apple ID" false = Thrown e ->
        later = [] /\ result (getAppleCredentials prompter args tt) = Thrown e.
Proof.
  destruct args as [|a0 [|a1 rest]];
    unfold getAppleCredentials; unfold_run; cbn [nth_error]; intros Hfalsy;
    rewrite ?Hfalsy; cbn [app fst snd];
    repeat (split_run; cbn [app fst snd]).
  all: eexists; split; [reflexivity|]; intros e' He'; try discriminate.
  all: injection He' as <-; split; reflexivity.
Qed.

Lemma missing_username_is_asked_first_witness :
  exists later,
    events (getAppleCredentials sample_prompter [""; "pw"] tt)
    = EvGetString "Apple ID" false (Returned "dev@example.com") :: later.
Proof.
  destruct (missing_username_is_asked_first sample_prompter [""; "pw"])
    as (later & Hev & _); [reflexivity|].
  exists later. exact Hev.
Defined.

(** The credentials that are returned are, each on its own, the argument
    when it is given and not empty and the answer of the prompter
    otherwise; an argument that is used is not asked for. *)
Theorem credentials_provenance prompter args c :
  result (getAppleCredentials prompter args tt) = Returned c ->
  ((nth_error args 0 = Some (username c)
    /\ username c <> EmptyString
    /\ Forall (fun ev => is_prompt_for "Apple ID" ev = false)
              (events (getAppleCredentials prompter args tt)))
   \/ (JS.truthy_string (nth_error args 0) = false
       /\ In (EvGetString "Apple ID" false (Returned (username c)))
             (events (getAppleCredentials prompter args tt))))
  /\ ((nth_error args 1 = Some (password c)
       /\ password c <> EmptyString
       /\ Forall (fun ev => is_prompt_for "Apple ID password" ev = false)
                 (events (getAppleCredentials prompter args tt)))
      \/ (JS.truthy_string (nth_error args 1) = false
          /\ In (EvGetPassword "Apple ID password" (Returned (password c)))
                (events (getAppleCredentials prompter args tt)))).
Proof.
  open_credentials args.
  all: intros [= <-]; cbn [username password nth_error JS.truthy_string].
  all: repeat match goal with
         | H : negb _ = true |- _ => apply negb_true_iff, String.eqb_neq in H
         | H : negb _ = false |- _ => apply negb_false_iff in H
         end.
  all: split;
    first
      [ left; split; [reflexivity|split; [assumption|repeat constructor]]
      | right; split;
        [ first [reflexivity | cbn [negb]; match goal with
                                            | H : _ = true |- _ => now rewrite H
                                            end]
        | cbn [In]; tauto ] ].
Qed.

Lemma credentials_provenance_witness :
  let r := getAppleCredentials sample_prompter ["me@example.com"] tt in
  exists c,
    result r = Returned c
    /\ username c = "me@example.com"
    /\ In (EvGetPassword "Apple ID password" (Returned (password c))) (events r).
Proof.
  cbv zeta. eexists. split; [reflexivity|].
  destruct (credentials_provenance sample_prompter ["me@example.com"]
              {| username := "me@example.com"; password := "secret" |} eq_refl)
    as [_ [(Hgiven & _)|(_ & Hasked)]].
  - discriminate Hgiven.
  - split; [reflexivity|exact Hasked].
Defined.

(** [getAppleCredentials] asks at most two questions, for the Apple ID
    first and for the password second, each at most once. *)
Theorem credential_questions_in_order prompter args :
  sublist (omap credential_asked (events (getAppleCredentials prompter args tt)))
          ["Apple ID"; "Apple ID password"].
Proof.
  open_credentials args.
  all: cbn;
    solve [repeat first [apply sublist_nil | apply sublist_skip
                        | apply sublist_cons]].
Qed.

End CredentialsTheory.

(** ** More on the codesign service *)

Module CodesignExtra.
Import CloudCodesignService CodesignSpec CodesignProtocol CodesignWorlds CodesignTheory.

Ltac pick_event H :=
  cbn [In] in H;
  repeat (destruct H as [H|H]; [try discriminate|]);
  try discriminate; try contradiction.

(** Open [generateCodesignFiles] in the goal along every outcome. *)
Ltac open_generation svc cd dir n :=
  let Hrun := fresh "Hrun" in
  let e := fresh "e" in
  destruct (validateParameteres_dichotomy cd dir n) as [Hrun|(e & Hrun)];
  [ let d := fresh "d" in
    let Hd := fresh "Hd" in
    let Hu := fresh "Husername" in
    let Hp := fresh "Hpassword" in
    destruct (validateParameteres_passes cd dir n) as (d & Hd & Hu & Hp & _);
    [now rewrite Hrun|]; subst cd;
    rewrite ?(accepted_call svc d dir n Hrun); cbv zeta;
    unfold executeGeneration, prepareCodesignRequest; unfold_run;
    cbn [app fst snd];
    repeat (split_run; cbn [app fst snd])
  | rewrite ?(rejected_call_silent svc cd dir n e Hrun);
    cbn [events result final fst snd] ].

(** The network steps of a run follow the protocol: submit, poll, fetch
    the manifest, download, read the full output, each at most once, in
    this order and none without the ones before it. *)
Theorem network_steps_follow_protocol svc codesignData projectDir n :
  stages (events (generateCodesignFiles svc codesignData projectDir n))
  `prefix_of` [0; 1; 2; 3; 4].
Proof.
  open_generation svc codesignData projectDir n.
  all: cbn; first [ now exists [0; 1; 2; 3; 4] | now exists [1; 2; 3; 4]
                  | now exists [2; 3; 4] | now exists [3; 4]
                  | now exists [4] | now exists [] ].
Qed.

(** What the catch block rethrows: an error object with the [buildId], and
    for anything that takes no property the [TypeError] of the assignment,
    which has no [buildId]. *)
Lemma rethrown_cases caught id :
  (forall e, caught = JS.Obj e -> rethrown caught id = JS.Obj (JS.set_buildId e id))
  /\ (JS.isExtensible caught = false ->
      rethrown caught id = JS.Obj (JS.AssignTypeError caught "buildId")).
Proof.
  split.
  - intros e ->. reflexivity.
  - destruct caught; [discriminate|reflexivity|reflexivity].
Qed.

(** When the project data cannot be read, nothing goes over the network.
    An error object that [getProjectData] threw comes out with the
    [buildId]; when it threw something that takes no property, the
    [TypeError] of the assignment comes out instead, without [buildId]. *)
Theorem unreadable_project_stops_generation
    svc codesignData projectDir n dir thrown :
  In (EvGetProjectData dir (Thrown thrown))
     (events (generateCodesignFiles svc codesignData projectDir n)) ->
  stages (events (generateCodesignFiles svc codesignData projectDir n)) = []
  /\ (forall e : JS.Error,
        thrown = JS.Obj e ->
        result (generateCodesignFiles svc codesignData projectDir n)
        = Thrown (JS.Obj (JS.set_buildId e (uuid_v4 svc n))))
  /\ (JS.isExtensible thrown = false ->
      result (generateCodesignFiles svc codesignData projectDir n)
      = Thrown (JS.Obj (JS.AssignTypeError thrown "buildId"))
      /\ JS.buildId (JS.AssignTypeError thrown "buildId") = None).
Proof.
  open_generation svc codesignData projectDir n.
  all: intros Hin; pick_event Hin.
  all: injection Hin as <- <-; split; [reflexivity|].
  all: match goal with
       | |- context [rethrown ?caught ?id] =>
           destruct (rethrown_cases caught id) as [Hobj Hbare]
       end.
  all: split; [intros e' He'; now rewrite (Hobj e' He')|].
  all: intros Hext; split; [now rewrite (Hbare Hext)|reflexivity].
Qed.

(** When the server refuses the request, nothing is polled, fetched or
    downloaded.  An error object that the request threw comes out with the
    [buildId]; when it threw something that takes no property, the
    [TypeError] of the assignment comes out instead, without [buildId]. *)
Theorem failed_start_stops_generation
    svc codesignData projectDir n req thrown :
  In (EvServerGenerate req (Thrown thrown))
     (events (generateCodesignFiles svc codesignData projectDir n)) ->
  stages (events (generateCodesignFiles svc codesignData projectDir n)) = [0]
  /\ (forall e : JS.Error,
        thrown = JS.Obj e ->
        result (generateCodesignFiles svc codesignData projectDir n)
        = Thrown (JS.Obj (JS.set_buildId e (uuid_v4 svc n))))
  /\ (JS.isExtensible thrown = false ->
      result (generateCodesignFiles svc codesignData projectDir n)
      = Thrown (JS.Obj (JS.AssignTypeError thrown "buildId"))
      /\ JS.buildId (JS.AssignTypeError thrown "buildId") = None).
Proof.
  open_generation svc codesignData projectDir n.
  all: intros Hin; pick_event Hin.
  all: injection Hin as <- <-; split; [reflexivity|].
  all: match goal with
       | |- context [rethrown ?caught ?id] =>
           destruct (rethrown_cases caught id) as [Hobj Hbare]
       end.
  all: split; [intros e' He'; now rewrite (Hobj e' He')|].
  all: intros Hext; split; [now rewrite (Hbare Hext)|reflexivity].
Qed.

(** A manifest with at least one build item, of whatever disposition, is
    handed to [downloadServerResults].  When the download throws, the run
    ends there: an error object comes out with the [buildId], and for
    anything that takes no property the [TypeError] of the assignment
    comes out instead, without [buildId]. *)
Theorem listed_items_are_downloaded svc codesignData projectDir n from m :
  In (EvS3Object from (Returned m))
     (events (generateCodesignFiles svc codesignData projectDir n)) ->
  no_items m = false ->
  exists options o,
    In (EvDownload m options o)
       (events (generateCodesignFiles svc codesignData projectDir n))
    /\ forall thrown,
        o = Thrown thrown ->
        (forall e : JS.Error,
            thrown = JS.Obj e ->
            result (generateCodesignFiles svc codesignData projectDir n)
            = Thrown (JS.Obj (JS.set_buildId e (uuid_v4 svc n))))
        /\ (JS.isExtensible thrown = false ->
            result (generateCodesignFiles svc codesignData projectDir n)
            = Thrown (JS.Obj (JS.AssignTypeError thrown "buildId"))
            /\ JS.buildId (JS.AssignTypeError thrown "buildId") = None).
Proof.
  open_generation svc codesignData projectDir n.
  all: intros Hin Hitems; pick_event Hin.
  all: injection Hin as <- <-; try congruence.
  all: do 2 eexists; split; [cbn [In]; eauto 15|].
  all: intros thrown Hthrown; try discriminate Hthrown.
  all: injection Hthrown as <-.
  all: match goal with
       | |- context [rethrown ?caught ?id] =>
           destruct (rethrown_cases caught id) as [Hobj Hbare]
       end.
  all: split; [intros e' He'; now rewrite (Hobj e' He')|].
  all: intros Hext; split; [now rewrite (Hbare Hext)|reflexivity].
Qed.

(** What is downloaded is the fetched manifest, which lists items; it goes
    to the project directory that [getProjectData] reported, for the
    platform of the codesign data, and never for an emulator. *)
Theorem download_options svc codesignData projectDir n m options o :
  In (EvDownload m options o)
     (events (generateCodesignFiles svc codesignData projectDir n)) ->
  opt_emulator options = false
  /\ no_items m = false
  /\ (exists from,
        In (EvS3Object from (Returned m))
           (events (generateCodesignFiles svc codesignData projectDir n)))
  /\ (exists projectData,
        In (EvGetProjectData projectDir (Returned projectData))
           (events (generateCodesignFiles svc codesignData projectDir n))
        /\ opt_projectDir options = Some (pd_projectDir projectData))
  /\ exists d, codesignData = Some d /\ opt_platform options = platform d.
Proof.
  open_generation svc codesignData projectDir n.
  all: intros Hin; pick_event Hin.
  all: injection Hin as <- <- <-.
  all: split; [reflexivity|split; [assumption|]].
  all: split; [eexists; cbn [In]; eauto 15|].
  all: split; [eexists; split; [cbn [In]; eauto 15|reflexivity]|].
  all: eexists; split; reflexivity.
Qed.

(** The data that a generation returns are made of the manifest that was
    fetched (stderr and stdout), of what the download returned (the file
    paths), of the text behind the result URL (the full output) and of the
    [buildId] of the run. *)
Theorem returned_data_provenance svc codesignData projectDir n data :
  result (generateCodesignFiles svc codesignData projectDir n) = Returned data ->
  exists from m options,
    In (EvS3Object from (Returned m))
       (events (generateCodesignFiles svc codesignData projectDir n))
    /\ In (EvDownload m options (Returned (out_outputFilesPaths data)))
          (events (generateCodesignFiles svc codesignData projectDir n))
    /\ In (EvS3Content from (Returned (out_fullOutput data)))
          (events (generateCodesignFiles svc codesignData projectDir n))
    /\ out_stderr data = result_stderr m
    /\ out_stdout data = result_stdout m
    /\ out_buildId data = uuid_v4 svc n.
Proof.
  open_generation svc codesignData projectDir n.
  all: intros [= <-].
  all: do 3 eexists; cbn [In out_outputFilesPaths out_fullOutput out_stderr
                           out_stdout out_buildId].
  all: split; [eauto 15|split; [eauto 15|split; [eauto 15|]]].
  all: repeat split.
Qed.

(** Polling and both reads of the result use what the server answered to
    the request of this run: polling gets that response, and the manifest
    and the full output are read from its result URL. *)
Theorem later_steps_use_the_response svc codesignData projectDir n ev :
  In ev (events (generateCodesignFiles svc codesignData projectDir n)) ->
  match ev with
  | EvWait _ resp _ =>
      exists req,
        In (EvServerGenerate req (Returned resp))
           (events (generateCodesignFiles svc codesignData projectDir n))
  | EvS3Object from _ | EvS3Content from _ =>
      exists req resp,
        In (EvServerGenerate req (Returned resp))
           (events (generateCodesignFiles svc codesignData projectDir n))
        /\ from = resultUrl resp
  | _ => True
  end.
Proof.
  open_generation svc codesignData projectDir n.
  all: intros Hin; pick_event Hin; subst ev; try exact I.
  all: first [ eexists; cbn [In]; solve [eauto 15]
             | do 2 eexists; split; [cbn [In]; solve [eauto 15]|reflexivity] ].
Qed.

(** The request that is sent carries the credentials of the codesign data,
    which are not empty, the project id and the sanitized project name of
    the project data, and the shared-cloud flag and devices as given. *)
Theorem request_carries_the_codesign_data svc codesignData projectDir n req o :
  In (EvServerGenerate req o)
     (events (generateCodesignFiles svc codesignData projectDir n)) ->
  exists d projectData,
    codesignData = Some d
    /\ In (EvGetProjectData projectDir (Returned projectData))
          (events (generateCodesignFiles svc codesignData projectDir n))
    /\ req_username req = username d
    /\ req_password req = password d
    /\ JS.truthy_string (req_username req) = true
    /\ JS.truthy_string (req_password req) = true
    /\ req_appId req = projectId projectData
    /\ req_appName req = sanitizeName svc (projectName projectData)
    /\ req_sharedCloud req = sharedCloud d
    /\ req_devices req = attachedDevices d.
Proof.
  open_generation svc codesignData projectDir n.
  all: intros Hin; pick_event Hin.
  all: injection Hin as <- <-.
  all: do 2 eexists; split; [reflexivity|].
  all: split; [cbn [In]; eauto 15|].
  all: cbn [req_username req_password req_appId req_appName req_sharedCloud
            req_devices set_clean username password sharedCloud attachedDevices].
  all: repeat split; assumption.
Qed.

(** An accepted call starts by drawing its identifier and draws no other. *)
Lemma buildId_facts svc codesignData projectDir n :
  result (validateParameteres codesignData projectDir n) = Returned tt ->
  (exists rest,
      events (generateCodesignFiles svc codesignData projectDir n)
      = EvUuid (uuid_v4 svc n) :: rest)
  /\ final (generateCodesignFiles svc codesignData projectDir n) = S n.
Proof.
  intros Hv. apply validateParameteres_passes in Hv.
  destruct Hv as (d & -> & _ & _ & _ & Hrun).
  rewrite (accepted_call svc d projectDir n Hrun). cbv zeta.
  unfold executeGeneration, prepareCodesignRequest. unfold_run.
  cbn [app fst snd].
  repeat (split_run; cbn [app fst snd]).
  all: split; [eexists; reflexivity|reflexivity].
Qed.

(** A rejected call fails with the message for the codesign data when
    these are missing or lack a username or a password, whatever the
    project path is, and with the message for the project path only when
    the codesign data are in order. *)
Theorem validation_reports_codesign_data_first svc codesignData projectDir n :
  rejected codesignData projectDir ->
  generateCodesignFiles svc codesignData projectDir n
  = ([], n, Thrown (JS.new_Error (validation_message codesignData))).
Proof.
  intros Hrej. unfold generateCodesignFiles, validateParameteres, validation_message.
  unfold_run.
  destruct codesignData as [d|]; [|reflexivity].
  destruct (JS.truthy_string (username d)) eqn:Hu; [|reflexivity].
  destruct (JS.truthy_string (password d)) eqn:Hp; [|reflexivity].
  cbn [negb orb andb app fst snd].
  destruct Hrej as [Hrej|[(d' & [= <-] & [Hrej|Hrej])| ->]]; try congruence.
  reflexivity.
Qed.

Lemma validation_reports_codesign_data_first_witness :
  rejected None EmptyString
  /\ generateCodesignFiles (sample_services (Returned tt) signed_manifest)
       None EmptyString 0
     = ([], 0, Thrown (JS.new_Error MISSING_CODESIGN_DATA)).
Proof.
  split; [left; reflexivity|].
  apply (validation_reports_codesign_data_first
           (sample_services (Returned tt) signed_manifest) None EmptyString 0).
  left. reflexivity.
Defined.

(** Two accepted calls, one after the other, draw the identifiers that
    [uuid.v4()] hands out one after the other: the second call does not
    reuse the [buildId] of the first unless [uuid.v4()] repeats itself. *)
Theorem consecutive_calls_draw_consecutive_ids
    svc codesignData1 projectDir1 codesignData2 projectDir2 n :
  let first := generateCodesignFiles svc codesignData1 projectDir1 n in
  let second := generateCodesignFiles svc codesignData2 projectDir2 (final first) in
  result (validateParameteres codesignData1 projectDir1 n) = Returned tt ->
  result (validateParameteres codesignData2 projectDir2 (final first)) = Returned tt ->
  (exists rest, events first = EvUuid (uuid_v4 svc n) :: rest)
  /\ (exists rest, events second = EvUuid (uuid_v4 svc (S n)) :: rest)
  /\ final second = S (S n).
Proof.
  cbv zeta. intros H1 H2.
  destruct (buildId_facts svc codesignData1 projectDir1 n H1) as (Hev1 & Hfin1).
  rewrite Hfin1 in *.
  destruct (buildId_facts svc codesignData2 projectDir2 (S n) H2) as (Hev2 & Hfin2).
  repeat split; assumption.
Qed.

Lemma consecutive_calls_draw_consecutive_ids_witness :
  let svc := sample_services (Returned tt) signed_manifest in
  let first := generateCodesignFiles svc (Some sample_codesignData) "/work/app" 0 in
  let second :=
    generateCodesignFiles svc (Some sample_codesignData) "/work/app" (final first) in
  (exists rest, events first = EvUuid "build-0" :: rest)
  /\ (exists rest, events second = EvUuid "build-1" :: rest).
Proof.
  cbv zeta.
  destruct (consecutive_calls_draw_consecutive_ids
              (sample_services (Returned tt) signed_manifest)
              (Some sample_codesignData) "/work/app"
              (Some sample_codesignData) "/work/app" 0)
    as (H1 & H2 & _); [reflexivity|reflexivity|].
  split; assumption.
Defined.

(** *** The statements at work in the sample worlds *)

Ltac find_event := vm_compute; repeat (first [left; reflexivity | right]).

Lemma unreadable_project_stops_generation_witness :
  let r := generateCodesignFiles projectless_services
             (Some sample_codesignData) "/work/app" 0 in
  stages (events r) = []
  /\ result r
     = Thrown (JS.Obj (JS.set_buildId (JS.new_Error "No project found.") "build-0")).
Proof.
  cbv zeta.
  destruct (unreadable_project_stops_generation projectless_services
              (Some sample_codesignData) "/work/app" 0 "/work/app"
              (JS.Obj (JS.new_Error "No project found.")))
    as (Hquiet & Hobj & _); [find_event|].
  split; [exact Hquiet|]. exact (Hobj _ eq_refl).
Defined.

Lemma failed_start_stops_generation_witness :
  let r := generateCodesignFiles string_rejecting_services
             (Some sample_codesignData) "/work/app" 0 in
  stages (events r) = [0]
  /\ result r
     = Thrown (JS.Obj (JS.new_Error
                         "Cannot create property 'buildId' on string 'failed'")).
Proof.
  cbv zeta.
  destruct (failed_start_stops_generation string_rejecting_services
              (Some sample_codesignData) "/work/app" 0 (sample_request "build-0")
              (JS.Str "failed"))
    as (Hquiet & _ & Hbare); [find_event|].
  split; [exact Hquiet|]. exact (proj1 (Hbare eq_refl)).
Defined.

Lemma listed_items_are_downloaded_witness :
  let r := generateCodesignFiles (sample_services (Returned tt) package_manifest)
             (Some sample_codesignData) "/work/app" 0 in
  no_items package_manifest = false
  /\ JS.lodash_filter (buildItems package_manifest)
       (is_codesign_item sample_constants) = []
  /\ exists options o, In (EvDownload package_manifest options o) (events r).
Proof.
  cbv zeta. split; [reflexivity|]. split; [reflexivity|].
  destruct (listed_items_are_downloaded
              (sample_services (Returned tt) package_manifest)
              (Some sample_codesignData) "/work/app" 0
              (resultUrl sample_response) package_manifest)
    as (options & o & Hin & _); [find_event|reflexivity|].
  exists options, o. exact Hin.
Defined.

Lemma download_options_witness :
  let r := generateCodesignFiles (sample_services (Returned tt) signed_manifest)
             (Some sample_codesignData) "/work/app" 0 in
  In (EvDownload signed_manifest sample_download_options
        (Returned [url certificate_item; url provision_item])) (events r)
  /\ no_items signed_manifest = false.
Proof.
  cbv zeta.
  assert (Hin : In (EvDownload signed_manifest sample_download_options
                      (Returned [url certificate_item; url provision_item]))
                   (events (generateCodesignFiles
                              (sample_services (Returned tt) signed_manifest)
                              (Some sample_codesignData) "/work/app" 0)))
    by find_event.
  split; [exact Hin|].
  destruct (download_options _ _ _ _ _ _ _ Hin) as (_ & Hitems & _).
  exact Hitems.
Defined.

Lemma returned_data_provenance_witness :
  let r := generateCodesignFiles (sample_services (Returned tt) signed_manifest)
             (Some sample_codesignData) "/work/app" 0 in
  exists data,
    result r = Returned data
    /\ out_buildId data = "build-0"
    /\ exists from, In (EvS3Content from (Returned (out_fullOutput data))) (events r).
Proof.
  cbv zeta. eexists. split; [vm_compute; reflexivity|].
  destruct (returned_data_provenance
              (sample_services (Returned tt) signed_manifest)
              (Some sample_codesignData) "/work/app" 0
              {| out_buildId := "build-0"; out_stderr := None;
                 out_stdout := Some "done"; out_fullOutput := "full output";
                 out_outputFilesPaths := [url certificate_item; url provision_item] |})
    as (from & m & options & _ & _ & Hread & _ & _ & Hid);
    [vm_compute; reflexivity|].
  split; [exact Hid|]. exists from. exact Hread.
Defined.

Lemma later_steps_use_the_response_witness :
  let r := generateCodesignFiles (sample_services (Returned tt) signed_manifest)
             (Some sample_codesignData) "/work/app" 0 in
  exists req resp,
    In (EvServerGenerate req (Returned resp)) (events r)
    /\ "https://results.example/codesign.json" = resultUrl resp.
Proof.
  cbv zeta.
  apply (later_steps_use_the_response
           (sample_services (Returned tt) signed_manifest)
           (Some sample_codesignData) "/work/app" 0
           (EvS3Content "https://results.example/codesign.json"
              (Returned "full output"))).
  find_event.
Defined.

Lemma request_carries_the_codesign_data_witness :
  let r := generateCodesignFiles (sample_services (Returned tt) signed_manifest)
             (Some sample_codesignData) "/work/app" 0 in
  In (EvServerGenerate (sample_request "build-0") (Returned sample_response))
     (events r)
  /\ JS.truthy_string (req_password (sample_request "build-0")) = true.
Proof.
  cbv zeta.
  assert (Hin : In (EvServerGenerate (sample_request "build-0")
                      (Returned sample_response))
                   (events (generateCodesignFiles
                              (sample_services (Returned tt) signed_manifest)
                              (Some sample_codesignData) "/work/app" 0)))
    by find_event.
  split; [exact Hin|].
  destruct (request_carries_the_codesign_data _ _ _ _ _ _ Hin)
    as (d & projectData & _ & _ & _ & _ & _ & Hpassword & _).
  exact Hpassword.
Defined.

End CodesignExtra.

(** ** More on the build command helper *)

Module BuildExtra.
Import BuildCommandHelper BuildSpec BuildWorlds BuildTheory.

(** A platform that is neither Android nor iOS is refused, after
    [package.json] has been read, with the message that lists the
    supported platforms. *)
Theorem unsupported_platform_is_refused
    C svc options projectData platformArg s platform json :
  validatePlatformName svc platformArg = Returned platform ->
  readJson svc (path_join svc [projectDir projectData; "package.json"])
  = Returned json ->
  isAndroidPlatform svc platform = false ->
  isiOSPlatform svc platform = false ->
  getCloudBuildData C svc options projectData platformArg s
  = ([EvValidatePlatformName platformArg (Returned platform);
      EvInfo ("Executing cloud build with platform: " ++ platform ++ ".");
      EvReadJson (path_join svc [projectDir projectData; "package.json"])
        (Returned json)],
     s,
     Thrown (JS.new_Error
               ("Currently only " ++ String.concat " " (platformNames svc)
                ++ " platforms are supported."))).
Proof.
  intros Hvalid Hjson Handroid Hios.
  unfold getCloudBuildData. unfold_run.
  rewrite Hvalid. cbn [app fst snd]. rewrite Hjson, Handroid, Hios.
  reflexivity.
Qed.

Lemma unsupported_platform_is_refused_witness :
  result (getCloudBuildData sample_build_constants sample_build_services
            sample_build_options sample_build_project "Windows" tt)
  = Thrown (JS.new_Error "Currently only iOS Android platforms are supported.").
Proof.
  rewrite (unsupported_platform_is_refused sample_build_constants
             sample_build_services sample_build_options sample_build_project
             "Windows" tt "Windows" {| nativescript := Some "{}" |}
             eq_refl eq_refl eq_refl eq_refl).
  reflexivity.
Defined.

(** The build data that [getCloudBuildData] returns are for the validated
    platform, which is Android or iOS; the Android and the iOS part name
    the same certificate, which is the resolved key store for Android and
    the resolved certificate otherwise (the empty path when the option is
    not given); the iOS build is for a device unless [emulator] is set. *)
Theorem build_data_certificate
    C svc options projectData platformArg s t s' d :
  getCloudBuildData C svc options projectData platformArg s = (t, s', Returned d) ->
  validatePlatformName svc platformArg = Returned (bd_platform d)
  /\ (isAndroidPlatform svc (bd_platform d) = true
      \/ isiOSPlatform svc (bd_platform d) = true)
  /\ android_pathToCertificate (androidBuildData d)
     = ios_pathToCertificate (iOSBuildData d)
  /\ android_pathToCertificate (androidBuildData d)
     = resolved svc (if isAndroidPlatform svc (bd_platform d)
                     then keyStorePath options
                     else certificate options)
  /\ ios_pathToProvision (iOSBuildData d) = resolved svc (provision options)
  /\ ios_buildForDevice (iOSBuildData d) = negb (JS.truthy_flag (emulator options)).
Proof.
  unfold getCloudBuildData. unfold_run.
  destruct (validatePlatformName svc platformArg) as [p|e]; [|discriminate].
  cbn [app fst snd].
  destruct (readJson svc _); [|discriminate].
  destruct (isAndroidPlatform svc p) eqn:Handroid;
    [|destruct (isiOSPlatform svc p) eqn:Hios]; intros [= <- <- <-];
    cbn [bd_platform androidBuildData iOSBuildData android_pathToCertificate
         ios_pathToCertificate ios_pathToProvision ios_buildForDevice];
    rewrite ?Handroid; repeat split; auto.
Qed.

Lemma build_data_certificate_witness :
  exists t d,
    getCloudBuildData sample_build_constants sample_build_services
      sample_build_options sample_build_project "Android" tt = (t, tt, Returned d)
    /\ android_pathToCertificate (androidBuildData d) = "/work/debug.keystore"
    /\ ios_pathToCertificate (iOSBuildData d) = "/work/debug.keystore".
Proof.
  do 2 eexists. split; [vm_compute; reflexivity|].
  destruct (build_data_certificate sample_build_constants sample_build_services
              sample_build_options sample_build_project "Android" tt
              _ tt _ eq_refl)
    as (_ & _ & Hsame & Hpath & _).
  split; [exact Hpath|]. exact (eq_trans (eq_sym Hsame) Hpath).
Defined.

(** A platform name that is not valid ends [buildForPublishingPlatform] at
    once, with [local] or without: nothing is read and nothing is built. *)
Theorem invalid_platform_builds_nothing
    C svc options projectData platformArg s e :
  validatePlatformName svc platformArg = Thrown e ->
  buildForPublishingPlatform C svc options projectData platformArg s
  = ([EvValidatePlatformName platformArg (Thrown e)], s, Thrown e).
Proof.
  intros Hvalid. unfold buildForPublishingPlatform. unfold bind at 1, call at 1.
  now rewrite Hvalid.
Qed.

Lemma invalid_platform_builds_nothing_witness :
  buildForPublishingPlatform sample_build_constants strict_build_services
    local_build_options sample_build_project "Windows" tt
  = ([EvValidatePlatformName "Windows" (Thrown (JS.new_Error "Invalid platform."))],
     tt, Thrown (JS.new_Error "Invalid platform.")).
Proof.
  apply (invalid_platform_builds_nothing sample_build_constants
           strict_build_services local_build_options sample_build_project
           "Windows" tt (JS.new_Error "Invalid platform.")).
  reflexivity.
Defined.

(** With [local] set, [buildForPublishingPlatform] runs one local build,
    for release and for a device whatever the [release] and [emulator]
    options say, in the directory of the [path] option; it reads no
    [package.json], submits no cloud build, and ends as the local build
    ends. *)
Theorem local_publishing_builds_locally
    C svc options projectData platformArg s platform :
  JS.truthy_flag (local options) = true ->
  validatePlatformName svc platformArg = Returned platform ->
  exists opts,
    buildForPublishingPlatform C svc options projectData platformArg s
    = ([EvValidatePlatformName platformArg (Returned platform);
        EvLocalBuild platform opts (platformTemplate options)
          (localBuild svc platform opts (platformTemplate options))],
       s,
       localBuild svc platform opts (platformTemplate options))
    /\ lb_release opts = true
    /\ lb_buildForDevice opts = true
    /\ lb_projectDir opts = path options
    /\ lb_bundle opts = JS.truthy_flag (bundle options)
    /\ lb_keyStorePath opts = keyStorePath options
    /\ lb_provision opts = provision options.
Proof.
  intros Hlocal Hvalid. unfold buildForPublishingPlatform.
  unfold bind at 1, call at 1. rewrite Hvalid, Hlocal.
  eexists. split; [unfold call; reflexivity|]. repeat split.
Qed.

Lemma local_publishing_builds_locally_witness :
  JS.truthy_flag (release local_build_options) = false
  /\ JS.truthy_flag (emulator local_build_options) = true
  /\ exists opts,
      events (buildForPublishingPlatform sample_build_constants
                strict_build_services local_build_options sample_build_project
                "Android" tt)
      = [EvValidatePlatformName "Android" (Returned "Android");
         EvLocalBuild "Android" opts None (Returned "/work/app/platforms/app.apk")]
      /\ lb_release opts = true
      /\ lb_buildForDevice opts = true.
Proof.
  split; [reflexivity|]. split; [reflexivity|].
  destruct (local_publishing_builds_locally sample_build_constants
              strict_build_services local_build_options sample_build_project
              "Android" tt "Android" eq_refl eq_refl)
    as (opts & Hrun & Hrelease & Hdevice & _).
  exists opts. rewrite Hrun. repeat split; assumption.
Defined.

(** The cloud build is the last step of publishing, and is submitted at
    most once: when it returns, the original URL of its QR data is the
    result, and when it fails, its error is the error of the call. *)
Theorem cloud_build_ends_publishing
    C svc options projectData platformArg s
    settings platform configuration account android ios o :
  In (EvCloudBuild settings platform configuration account android ios o)
     (events (buildForPublishingPlatform C svc options projectData platformArg s)) ->
  (exists before,
      events (buildForPublishingPlatform C svc options projectData platformArg s)
      = before
        ++ [EvCloudBuild settings platform configuration account android ios o]
      /\ Forall (fun ev => match ev with
                           | EvCloudBuild _ _ _ _ _ _ _ => False
                           | _ => True
                           end) before)
  /\ result (buildForPublishingPlatform C svc options projectData platformArg s)
     = match o with
       | Returned built =>
           match qrData built with
           | Some qr => Returned (originalUrl qr)
           | None => Thrown (JS.TypeError "originalUrl")
           end
       | Thrown e => Thrown e
       end.
Proof.
  destruct (validatePlatformName svc platformArg) as [p|e] eqn:Hvalid.
  - destruct (JS.truthy_flag (local options)) eqn:Hlocal.
    + unfold buildForPublishingPlatform. unfold bind at 1, call at 1.
      rewrite Hvalid, Hlocal. unfold call.
      cbn [events fst In app]. intros [Hin|[Hin|[]]]; discriminate.
    + rewrite (publishing_in_the_cloud C svc options projectData platformArg s
                 p Hlocal Hvalid).
      pose proof (getCloudBuildData_no_build C svc options projectData p s)
        as Hquiet.
      destruct (getCloudBuildData C svc options projectData p s)
        as [[t s'] [d|e]]; cbn [events result fst snd] in *.
      * rewrite List.Forall_forall in Hquiet.
        intros [Hin|Hin]; [discriminate|].
        apply in_app_or in Hin. destruct Hin as [Hin|[Hin|[]]].
        -- now apply Hquiet in Hin.
        -- injection Hin as <- <- <- <- <- <- <-. split; [|reflexivity].
           exists (EvValidatePlatformName platformArg (Returned p) :: t).
           split; [reflexivity|].
           constructor; [exact I|].
           apply List.Forall_forall. intros ev Hev.
           specialize (Hquiet ev Hev). now destruct ev.
      * rewrite List.Forall_forall in Hquiet.
        intros [Hin|Hin]; [discriminate|]. now apply Hquiet in Hin.
  - unfold buildForPublishingPlatform. unfold bind at 1, call at 1.
    rewrite Hvalid. cbn [events fst In]. intros [Hin|[]]. discriminate.
Qed.

Lemma cloud_build_ends_publishing_witness :
  result (buildForPublishingPlatform sample_build_constants sample_build_services
            sample_build_options sample_build_project "Android" tt)
  = Returned "https://builds.example/app.apk".
Proof.
  destruct (cloud_build_ends_publishing sample_build_constants
              sample_build_services sample_build_options sample_build_project
              "Android" tt
              {| ps_nativescriptData := Some "{}";
                 ps_projectDir := "/work/app";
                 ps_projectId := "org.nativescript.app";
                 ps_projectName := "app";
                 ps_bundle := false; ps_clean := None; ps_env := None |}
              "Android" "Release" (Some "1")
              {| android_pathToCertificate := "/work/debug.keystore";
                 android_certificatePassword := Some "android" |}
              {| ios_pathToCertificate := "/work/debug.keystore";
                 ios_certificatePassword := None;
                 ios_pathToProvision := EmptyString;
                 ios_buildForDevice := true |}
              (Returned {| qrData := Some {| originalUrl :=
                                               "https://builds.example/app.apk" |} |}))
    as (_ & Hres).
  - vm_compute. repeat (first [left; reflexivity | right]).
  - exact Hres.
Defined.

(** Without [local], the platform name is validated twice: the argument
    first, then the validated name once more, by [getCloudBuildData]; when
    the second validation fails nothing is read or built. *)
Theorem cloud_publishing_validates_twice
    C svc options projectData platformArg s platform :
  JS.truthy_flag (local options) = false ->
  validatePlatformName svc platformArg = Returned platform ->
  exists later,
    events (buildForPublishingPlatform C svc options projectData platformArg s)
    = EvValidatePlatformName platformArg (Returned platform)
      :: EvValidatePlatformName platform (validatePlatformName svc platform)
      :: later
    /\ forall e,
        validatePlatformName svc platform = Thrown e ->
        later = []
        /\ result (buildForPublishingPlatform C svc options projectData
                     platformArg s) = Thrown e.
Proof.
  intros Hlocal Hvalid.
  rewrite (publishing_in_the_cloud C svc options projectData platformArg s
             platform Hlocal Hvalid).
  unfold getCloudBuildData. unfold_run.
  destruct (validatePlatformName svc platform) as [p|e]; cbn [app fst snd].
  - repeat (split_run; cbn [app fst snd]).
    all: eexists; split; [reflexivity|]; intros e' He'; discriminate.
  - eexists. split; [reflexivity|]. intros e' [= <-]. split; reflexivity.
Qed.

Lemma cloud_publishing_validates_twice_witness :
  exists later,
    events (buildForPublishingPlatform sample_build_constants
              strict_build_services sample_build_options sample_build_project
              "iOS" tt)
    = EvValidatePlatformName "iOS" (Returned "iOS")
      :: EvValidatePlatformName "iOS" (Returned "iOS") :: later.
Proof.
  destruct (cloud_publishing_validates_twice sample_build_constants
              strict_build_services sample_build_options sample_build_project
              "iOS" tt "iOS" eq_refl eq_refl) as (later & Hev & _).
  exists later. exact Hev.
Defined.

End BuildExtra.
